(** * MP4 -> MOV batch converter: a shallow embedding of [main.py]

    The embedding follows [main.py] function by function.  The Qt widgets
    are records of the values the code reads and writes; message boxes,
    [os.makedirs] and [subprocess.run] calls are recorded, in order, in a
    trace of events.  What the operating system answers (which paths exist,
    how each converter process ends, what the clock says) is a field of
    the [world] record, as is the module-level [ffmpeg_path], so every
    theorem quantifies over it.

    Python strings are [string]s whose characters are the code points
    below 256.  Paths follow the POSIX flavour of [pathlib] and of
    [os.path], the one the source runs on where [sys.platform] is not
    ["win32"] (the branch of [get_ffmpeg_path] marked Mac/Linux). *)

From Stdlib Require Import Bool Arith ZArith List Sorting.Sorted Lia.
From Stdlib Require Import Strings.Ascii Strings.String Numbers.DecimalString.
From Stdlib Require Import Floats.PrimFloat Floats.FloatOps Floats.SpecFloat.
From Stdlib Require Import Numbers.Cyclic.Int63.Uint63.
Import ListNotations.

Local Open Scope string_scope.
Local Open Scope list_scope.
Local Open Scope nat_scope.

(** ** Python [str] operations *)

Module Str.

(** [c.isspace()] for a code point below 256: the characters that
    [str.strip()] removes. *)
Definition isspace (c : ascii) : bool :=
  let n := nat_of_ascii c in
  ((9 <=? n) && (n <=? 13)) || ((28 <=? n) && (n <=? 32))
  || (n =? 133) || (n =? 160).

(** [c.lower()] for a code point below 256: A-Z and the Latin-1 capitals
    (all of 192..222 but the multiplication sign 215) move up by 32. *)
Definition lower_char (c : ascii) : ascii :=
  let n := nat_of_ascii c in
  if ((65 <=? n) && (n <=? 90))
     || ((192 <=? n) && (n <=? 222) && negb (n =? 215))
  then ascii_of_nat (n + 32) else c.

Fixpoint lower (s : string) : string :=
  match s with
  | EmptyString => EmptyString
  | String c r => String (lower_char c) (lower r)
  end.

Definition is_empty (s : string) : bool :=
  match s with EmptyString => true | _ => false end.

Fixpoint lstrip (s : string) : string :=
  match s with
  | EmptyString => EmptyString
  | String c r => if isspace c then lstrip r else s
  end.

Fixpoint rstrip (s : string) : string :=
  match s with
  | EmptyString => EmptyString
  | String c r =>
      let r' := rstrip r in
      if isspace c && is_empty r' then EmptyString else String c r'
  end.

(** [s.strip()] *)
Definition strip (s : string) : string := rstrip (lstrip s).

(** [s.rfind(c)] for a one-character [c]; [None] stands for -1. *)
Fixpoint rfind (c : ascii) (s : string) : option nat :=
  match s with
  | EmptyString => None
  | String a r =>
      match rfind c r with
      | Some i => Some (S i)
      | None => if Ascii.eqb a c then Some 0 else None
      end
  end.

(** The slices [s[:i]], [s[i:]] and [s[i:j]]. *)
Definition slice_to (i : nat) (s : string) : string := substring 0 i s.
Definition slice_from (i : nat) (s : string) : string :=
  substring i (length s - i) s.
Definition slice (i j : nat) (s : string) : string := substring i (j - i) s.

(** [all(ch == c for ch in s)] *)
Fixpoint all_char (c : ascii) (s : string) : bool :=
  match s with
  | EmptyString => true
  | String a r => Ascii.eqb a c && all_char c r
  end.

(** [c in s] *)
Fixpoint contains (c : ascii) (s : string) : bool :=
  match s with
  | EmptyString => false
  | String a r => Ascii.eqb a c || contains c r
  end.

(** [s.startswith(p)] is [String.prefix p s]; [s.endswith(x)]: *)
Definition endswith (x s : string) : bool :=
  (length x <=? length s)
  && String.eqb (slice_from (length s - length x) s) x.

(** [s.split(c)] for a one-character separator. *)
Fixpoint split (c : ascii) (s : string) : list string :=
  match s with
  | EmptyString => [EmptyString]
  | String a r =>
      match split c r with
      | [] => [EmptyString]
      | w :: ws =>
          if Ascii.eqb a c then EmptyString :: w :: ws else String a w :: ws
      end
  end.

(** [str(n)] for a natural number. *)
Definition of_nat (n : nat) : string := NilZero.string_of_uint (Nat.to_uint n).

(** The decimal digit of [n mod 10]. *)
Definition digit (n : nat) : ascii := ascii_of_nat (48 + n mod 10).

(** ["%02d" % n] for [n] below 100 and ["%04d" % n] for [n] below 10000. *)
Definition two_digits (n : nat) : string :=
  String (digit (n / 10)) (String (digit n) EmptyString).

Definition four_digits (n : nat) : string :=
  String (digit (n / 1000)) (String (digit (n / 100)) (two_digits n)).

(** [int(s)] for a string of decimal digits. *)
Definition digit_value (c : ascii) : nat := nat_of_ascii c - 48.

Fixpoint to_nat_from (acc : nat) (s : string) : nat :=
  match s with
  | EmptyString => acc
  | String c r => to_nat_from (10 * acc + digit_value c) r
  end.

Definition to_nat (s : string) : nat := to_nat_from 0 s.

(** Made of white space only. *)
Fixpoint all_space (s : string) : bool :=
  match s with
  | EmptyString => true
  | String c r => isspace c && all_space r
  end.

Definition starts_with_space (s : string) : bool :=
  match s with
  | EmptyString => false
  | String c _ => isspace c
  end.

Fixpoint ends_with_space (s : string) : bool :=
  match s with
  | EmptyString => false
  | String c EmptyString => isspace c
  | String _ r => ends_with_space r
  end.

(** No white space at either end. *)
Definition trimmed (s : string) : bool :=
  negb (starts_with_space s) && negb (ends_with_space s).

(** [n] decimal digits. *)
Definition isdigit (c : ascii) : bool :=
  (48 <=? nat_of_ascii c) && (nat_of_ascii c <=? 57).

Fixpoint all_digits (s : string) : bool :=
  match s with
  | EmptyString => true
  | String c r => isdigit c && all_digits r
  end.

Definition digits (n : nat) (s : string) : bool :=
  (length s =? n) && all_digits s.

End Str.

(** ** [os.path] (posixpath) *)

Module OsPath.

(** [os.path.basename(p)]: [i = p.rfind('/') + 1; return p[i:]]. *)
Definition basename (p : string) : string :=
  match Str.rfind "/" p with
  | None => p
  | Some sepIndex => Str.slice_from (S sepIndex) p
  end.

(** [os.path.splitext(p)] ([genericpath._splitext] with [sep = '/'],
    no [altsep], [extsep = '.']): the extension starts at the last dot
    of the last component, unless only dots come before it there. *)
Definition splitext (p : string) : string * string :=
  match Str.rfind "." p with
  | None => (p, EmptyString)
  | Some dotIndex =>
      let filenameIndex :=
        match Str.rfind "/" p with None => 0 | Some sepIndex => S sepIndex end in
      if (filenameIndex <=? dotIndex)
         && negb (Str.all_char "." (Str.slice filenameIndex dotIndex p))
      then (Str.slice_to dotIndex p, Str.slice_from dotIndex p)
      else (p, EmptyString)
  end.

(** [os.path.join(a, b)] *)
Definition join (a b : string) : string :=
  if String.prefix "/" b then b
  else if Str.is_empty a || Str.endswith "/" a then (a ++ b)%string
  else (a ++ "/" ++ b)%string.

End OsPath.

(** ** [pathlib] (PurePosixPath / PosixPath) and the file system it reads *)

Module PathLib.

(** A parsed path: [root] is [""], ["/"] or ["//"], [parts] are the
    components after it. *)
Record Path := mkPath { root : string; parts : list string }.

(** [posixpath.splitroot(p)]: the root and the rest. *)
Definition splitroot (p : string) : string * string :=
  if negb (String.prefix "/" p) then (EmptyString, p)
  else if negb (String.prefix "//" p) || String.prefix "///" p
       then ("/", Str.slice_from 1 p)
       else ("//", Str.slice_from 2 p).

(** [pathlib.Path(s)]: empty and ["."] components are dropped, [".."]
    is kept. *)
Definition parse (s : string) : Path :=
  let (r, rel) := splitroot s in
  mkPath r (filter (fun x => negb (Str.is_empty x) && negb (String.eqb x "."))
                   (Str.split "/" rel)).

(** [str(p)] *)
Definition to_str (p : Path) : string :=
  match root p, parts p with
  | EmptyString, [] => "."
  | r, ps => (r ++ String.concat "/" ps)%string
  end.

(** [p.name]: the last component, [''] when there is none. *)
Definition name (p : Path) : string := last (parts p) EmptyString.

(** [p.suffix]: [i = name.rfind('.')]; [name[i:]] if
    [0 < i < len(name) - 1], else ['']. *)
Definition suffix (p : Path) : string :=
  let n := name p in
  match Str.rfind "." n with
  | Some i => if (0 <? i) && (i <? length n - 1) then Str.slice_from i n
              else EmptyString
  | None => EmptyString
  end.

(** [p / child] for a single component (what globbing builds). *)
Definition child (p : Path) (c : string) : Path :=
  mkPath (root p) (parts p ++ [c]).

(** A file-system tree without symbolic links.  The entries of a
    directory are listed in the order in which [os.scandir] returns
    them. *)
#[warnings="-register-all"]
Inductive node : Type :=
| File : node
| Dir : list (string * node) -> node.

(** The tree mounted at [/] and the process's working directory (its
    components from the root). *)
Record filesystem := mkFs { fs_root : node; cwd : list string }.

Fixpoint entry (c : string) (es : list (string * node)) : option node :=
  match es with
  | [] => None
  | (n, x) :: r => if String.eqb n c then Some x else entry c r
  end.

(** Path lookup as the kernel does it, one component at a time;
    [above] holds the directories between the root and [cur], nearest
    first. *)
Fixpoint lookup (above : list node) (cur : node) (ps : list string)
  : option (list node * node) :=
  match ps with
  | [] => Some (above, cur)
  | c :: r =>
      match cur with
      | File => None
      | Dir es =>
          if String.eqb c ".." then
            match above with
            | [] => lookup [] cur r
            | up :: above' => lookup above' up r
            end
          else
            match entry c es with
            | Some x => lookup (cur :: above) x r
            | None => None
            end
      end
  end.

Definition stat (fs : filesystem) (p : Path) : option node :=
  match (if Str.is_empty (root p) then lookup [] (fs_root fs) (cwd fs)
         else Some ([], fs_root fs)) with
  | Some (above, start) => option_map snd (lookup above start (parts p))
  | None => None
  end.

Definition is_file (fs : filesystem) (p : Path) : bool :=
  match stat fs p with Some File => true | _ => false end.

Definition is_dir (fs : filesystem) (p : Path) : bool :=
  match stat fs p with Some (Dir _) => true | _ => false end.

(** The directories that a recursive glob visits: [p] itself, then the
    tree below each sub-directory in listing order (pre-order). *)
Fixpoint iterate_directories (p : Path) (n : node)
  : list (Path * list (string * node)) :=
  match n with
  | File => []
  | Dir es =>
      (p, es) ::
      (fix below (l : list (string * node)) :=
         match l with
         | [] => []
         | (c, x) :: r => iterate_directories (child p c) x ++ below r
         end) es
  end.

(** [fnmatch] of a name against the pattern ["*" + ext] with the POSIX
    flavour's case-sensitive matching: the name ends with [ext]. *)
Definition matches_star (ext : string) (nm : string) : bool :=
  Str.endswith ext nm.

(** [p.rglob("*" + ext)]: in every visited directory, the entries (of
    any kind) whose name matches, in listing order. *)
Definition rglob_star (fs : filesystem) (p : Path) (ext : string) : list Path :=
  match stat fs p with
  | Some n =>
      flat_map (fun '(d, es) =>
                  map (child d)
                      (filter (matches_star ext) (map fst es)))
               (iterate_directories p n)
  | None => []
  end.

End PathLib.

(** ** [DropArea] *)

Module DropArea.
Import PathLib.

(** The body of the loop of [dropEvent] for one url, [path] being
    [url.toLocalFile()]; [items] is the content of [self.list_widget]. *)
Definition drop_url (fs : filesystem) (items : list string) (path : string)
  : list string :=
  let p := parse path in
  if is_file fs p && String.eqb (Str.lower (suffix p)) ".mp4" then
    items ++ [to_str p]
  else if is_dir fs p then
    items ++ map to_str (rglob_star fs p ".mp4")
  else items.

(** [dropEvent]: [urls] lists [url.toLocalFile()] for the urls of the
    event's mime data ([hasUrls()] says the list is not empty).  The
    result is the new content of the list widget and whether the event
    was accepted. *)
Definition dropEvent (fs : filesystem) (urls : list string)
           (items : list string) : list string * bool :=
  match urls with
  | [] => (items, false)
  | _ => (fold_left (drop_url fs) urls items, true)
  end.

(** [remove_item]: [takeItem(row)] for the row of the double-clicked item. *)
Fixpoint remove_item (row : nat) (items : list string) : list string :=
  match row, items with
  | _, [] => []
  | O, _ :: r => r
  | S k, x :: r => x :: remove_item k r
  end.

End DropArea.

(** ** [ConverterApp] *)

Module ConverterApp.

(** [get_ffmpeg_path()] where [sys.platform] is not ["win32"]: [frozen]
    is [getattr(sys, 'frozen', False)], [meipass] is [sys._MEIPASS] and
    [getcwd] is [os.getcwd()]. *)
Definition get_ffmpeg_path (frozen : bool) (meipass getcwd : string) : string :=
  let base_path := if frozen then meipass else getcwd in
  OsPath.join (OsPath.join (OsPath.join base_path "ffmpeg") "bin") "ffmpeg".

(** The date part of [datetime.now()]. *)
Record datetime := mkDate { year : nat; month : nat; day : nat }.

(** A date of [datetime] with a year of four digits (for earlier years
    the C library's [%Y] pads with zeros on some platforms only). *)
Definition valid_date (d : datetime) : bool :=
  (1000 <=? year d) && (year d <? 10 * 1000)
  && (1 <=? month d) && (month d <=? 12)
  && (1 <=? day d) && (day d <=? 31).

(** [d.strftime("%Y-%m-%d")]: the year on four digits, the month and the
    day on two. *)
Definition strftime_Ymd (d : datetime) : string :=
  (Str.four_digits (year d) ++ "-" ++ Str.two_digits (month d) ++ "-"
   ++ Str.two_digits (day d))%string.

(** How [subprocess.run(..., check=True)] ends: the process exits with a
    return code (a non-zero one raises [CalledProcessError]), the
    executable is not found ([FileNotFoundError]), or another exception
    is raised (a [PermissionError], say). *)
Inductive process_outcome :=
| Exited (returncode : Z)
| FileNotFoundError
| OtherException.

(** What the environment answers: the module-level [ffmpeg_path] (the
    value of [get_ffmpeg_path()] at start-up), the clock,
    [os.path.exists], whether [os.makedirs] raises, and the processes:
    [run_process n argv] is the outcome of the call of [subprocess.run]
    that [n] calls came before. *)
Record world := mkWorld {
  ffmpeg_path : string;
  now : datetime;
  path_exists : string -> bool;
  makedirs_fails : string -> bool;
  run_process : nat -> list string -> process_outcome
}.

(** The message boxes of [convert_files], by title. *)
Inductive dialog :=
| NoFiles                                    (* warning, "Error" *)
| ConversionError (file : string) (returncode : Z)  (* critical, "Conversion Error" *)
| FfmpegNotFound (path : string)             (* critical, "FFmpeg Not Found" *)
| Done (count : nat) (output_dir : string).  (* information, "Done" *)

(** The text of the "Done" box:
    [f"Converted {len(files)} files into '{output_dir}'"]. *)
Definition done_text (count : nat) (output_dir : string) : string :=
  ("Converted " ++ Str.of_nat count ++ " files into '" ++ output_dir ++ "'")%string.

Inductive event :=
| Dialog (d : dialog)
| Makedirs (path : string)
| Run (argv : list string) (outcome : process_outcome)
| SetValue (v : Z)
| ProcessEvents.

(** The widgets' content, the number of processes started so far, and
    the trace of side effects, oldest first. *)
Record state := mkState {
  items : list string;          (* self.drop_area.list_widget *)
  output_input : string;        (* self.output_input.text() *)
  progress_value : Z;           (* self.progress.value() *)
  progress_visible : bool;
  calls : nat;
  trace : list event
}.

Definition log (e : event) (s : state) : state :=
  mkState (items s) (output_input s) (progress_value s) (progress_visible s)
          (calls s) (trace s ++ [e]).

(** [self.progress.setValue(v)]: a value outside the bar's range 0..100
    leaves the bar as it is. *)
Definition setValue (v : Z) (s : state) : state :=
  log (SetValue v)
      (mkState (items s) (output_input s)
               (if ((0 <=? v) && (v <=? 100))%Z then v else progress_value s)
               (progress_visible s) (calls s) (trace s)).

Definition set_visible (b : bool) (s : state) : state :=
  mkState (items s) (output_input s) (progress_value s) b (calls s) (trace s).

(** [self.drop_area.list_widget.clear()] *)
Definition clear (s : state) : state :=
  mkState [] (output_input s) (progress_value s) (progress_visible s)
          (calls s) (trace s).

(** Lines 112-115: the output folder's name. *)
Definition resolve (user_input : string) (today : datetime) : string :=
  let output_dir := Str.strip user_input in
  if Str.is_empty output_dir then ("Converted_" ++ strftime_Ymd today)%string
  else output_dir.

(** [float(n)] of a list length or a position in it (below 2^63). *)
Definition float_of_nat (n : nat) : float :=
  PrimFloat.of_uint63 (Uint63.of_Z (Z.of_nat n)).

(** [int(x)]: truncation towards zero of a finite float. *)
Definition int_of_float (x : float) : Z :=
  match Prim2SF x with
  | S754_finite sign m e =>
      let a := if (0 <=? e)%Z then Z.shiftl (Zpos m) e
               else Z.shiftr (Zpos m) (- e) in
      if sign then (- a)%Z else a
  | _ => 0%Z
  end.

(** [int((i / total_files) * 100)], in binary64 as Python computes it. *)
Definition bar_value (i total_files : nat) : Z :=
  int_of_float
    (PrimFloat.mul (PrimFloat.div (float_of_nat i) (float_of_nat total_files))
                   (float_of_nat 100)).

(** Lines 131-132. *)
Definition base_name (file : string) : string :=
  fst (OsPath.splitext (OsPath.basename file)).

Definition output_file (output_dir file : string) : string :=
  OsPath.join output_dir (base_name file ++ ".mov")%string.

(** Lines 135-142: the command line. *)
Definition ffmpeg_argv (w : world) (output_dir file : string) : list string :=
  [ffmpeg_path w; "-i"; file; "-c:v"; "copy"; "-c:a"; "pcm_s24le";
   output_file output_dir file; "-y"].

(** How one turn of the loop ends: at its last statement, by
    [continue], by [return], or by an exception that nothing catches. *)
Inductive flow := Next | Continue | Return | Raise.

(** Lines 131-152: the body of the loop for the file at position [i]. *)
Definition convert_one (w : world) (output_dir : string)
           (total_files i : nat) (file : string) (s : state) : flow * state :=
  let argv := ffmpeg_argv w output_dir file in
  let outcome := run_process w (calls s) argv in
  let s1 := log (Run argv outcome)
                (mkState (items s) (output_input s) (progress_value s)
                         (progress_visible s) (S (calls s)) (trace s)) in
  match outcome with
  | Exited code =>
      if (code =? 0)%Z then
        (Next, log ProcessEvents (setValue (bar_value i total_files) s1))
      else (Continue, log (Dialog (ConversionError file code)) s1)
  | FileNotFoundError =>
      (Return, log (Dialog (FfmpegNotFound (ffmpeg_path w))) s1)
  | OtherException => (Raise, s1)
  end.

(** Line 130: [for i, file in enumerate(files, start=1)], from position
    [i] on. *)
Fixpoint convert_loop (w : world) (output_dir : string) (total_files i : nat)
         (files : list string) (s : state) : flow * state :=
  match files with
  | [] => (Next, s)
  | file :: rest =>
      match convert_one w output_dir total_files i file s with
      | (Return, s') => (Return, s')
      | (Raise, s') => (Raise, s')
      | (_, s') => convert_loop w output_dir total_files (S i) rest s'
      end
  end.

(** How [convert_files] ends. *)
Inductive result :=
| EmptyBatch   (* line 120: nothing to convert *)
| Fatal        (* line 148: ffmpeg was not found *)
| Completed    (* line 156 was reached *)
| Raised.      (* an exception left the function *)

(** [convert_files] *)
Definition convert_files (w : world) (s : state) : result * state :=
  let output_dir := resolve (output_input s) (now w) in
  let files := items s in
  match files with
  | [] => (EmptyBatch, log (Dialog NoFiles) s)
  | _ :: _ =>
      let '(created, s1) :=
        if path_exists w output_dir then (true, s)
        else (negb (makedirs_fails w output_dir), log (Makedirs output_dir) s) in
      if created then
        let s2 := set_visible true (setValue 0 s1) in
        let total_files := List.length files in
        match convert_loop w output_dir total_files 1 files s2 with
        | (Return, s3) => (Fatal, s3)
        | (Raise, s3) => (Raised, s3)
        | (_, s3) =>
            (Completed,
             clear (log (Dialog (Done (List.length files) output_dir))
                        (set_visible false s3)))
        end
      else (Raised, s1)
  end.

(** *** Reading a trace *)

(** The command lines of the processes started. *)
Fixpoint invocations (t : list event) : list (list string) :=
  match t with
  | [] => []
  | Run argv _ :: r => argv :: invocations r
  | _ :: r => invocations r
  end.

(** The values passed to the progress bar. *)
Fixpoint progress_values (t : list event) : list Z :=
  match t with
  | [] => []
  | SetValue v :: r => v :: progress_values r
  | _ :: r => progress_values r
  end.

(** The number of conversions that exited with code 0. *)
Fixpoint succeeded (t : list event) : nat :=
  match t with
  | [] => 0
  | Run _ (Exited code) :: r =>
      (if (code =? 0)%Z then 1 else 0) + succeeded r
  | _ :: r => succeeded r
  end.

(** The files reported in a "Conversion Error" box. *)
Fixpoint failures (t : list event) : list string :=
  match t with
  | [] => []
  | Dialog (ConversionError file _) :: r => file :: failures r
  | _ :: r => failures r
  end.

(** The "Done" boxes shown: the count and folder of each. *)
Fixpoint summaries (t : list event) : list (nat * string) :=
  match t with
  | [] => []
  | Dialog (Done n d) :: r => (n, d) :: summaries r
  | _ :: r => summaries r
  end.

(** Whether the "FFmpeg Not Found" box was shown. *)
Fixpoint fatal_flag (t : list event) : bool :=
  match t with
  | [] => false
  | Dialog (FfmpegNotFound _) :: _ => true
  | _ :: r => fatal_flag r
  end.

(** The directories [os.makedirs] was called on. *)
Fixpoint created_dirs (t : list event) : list string :=
  match t with
  | [] => []
  | Makedirs d :: r => d :: created_dirs r
  | _ :: r => created_dirs r
  end.

End ConverterApp.

Import ConverterApp.

(** ** Auxiliary definitions *)

(** The events that one turn adds to the trace, read off [convert_one]
    case by case. *)
Inductive turn (w : world) (output_dir : string) (total_files i : nat)
          (file : string) (s : state) : flow -> state -> Prop :=
| turn_converted :
    run_process w (calls s) (ffmpeg_argv w output_dir file) = Exited 0 ->
    turn w output_dir total_files i file s Next
      (mkState (items s) (output_input s)
         (if ((0 <=? bar_value i total_files)
              && (bar_value i total_files <=? 100))%Z
          then bar_value i total_files else progress_value s)
         (progress_visible s) (S (calls s))
         (trace s ++ [Run (ffmpeg_argv w output_dir file) (Exited 0);
                      SetValue (bar_value i total_files); ProcessEvents]))
| turn_failed code :
    run_process w (calls s) (ffmpeg_argv w output_dir file) = Exited code ->
    code <> 0%Z ->
    turn w output_dir total_files i file s Continue
      (mkState (items s) (output_input s) (progress_value s)
         (progress_visible s) (S (calls s))
         (trace s ++ [Run (ffmpeg_argv w output_dir file) (Exited code);
                      Dialog (ConversionError file code)]))
| turn_not_found :
    run_process w (calls s) (ffmpeg_argv w output_dir file) = FileNotFoundError ->
    turn w output_dir total_files i file s Return
      (mkState (items s) (output_input s) (progress_value s)
         (progress_visible s) (S (calls s))
         (trace s ++ [Run (ffmpeg_argv w output_dir file) FileNotFoundError;
                      Dialog (FfmpegNotFound (ffmpeg_path w))]))
| turn_raised :
    run_process w (calls s) (ffmpeg_argv w output_dir file) = OtherException ->
    turn w output_dir total_files i file s Raise
      (mkState (items s) (output_input s) (progress_value s)
         (progress_visible s) (S (calls s))
         (trace s ++ [Run (ffmpeg_argv w output_dir file) OtherException])).

(** The state in which the loop starts (lines 122-127): the output folder
    made if it was missing, the bar reset to 0 and shown. *)
Definition prepared (w : world) (s : state) : state :=
  let output_dir := resolve (output_input s) (now w) in
  set_visible true
    (setValue 0 (if path_exists w output_dir then s
                 else log (Makedirs output_dir) s)).

(** The output folder is there when the loop starts: it existed, or
    [os.makedirs] made it. *)
Definition folder_ready (w : world) (s : state) : bool :=
  let output_dir := resolve (output_input s) (now w) in
  path_exists w output_dir || negb (makedirs_fails w output_dir).

(** How the process of the job at position [i] (from 1) ends, when the
    run gets to it: it is the call that [i - 1] calls of this run came
    before. *)
Definition job_outcome (w : world) (s : state) (i : nat) : process_outcome :=
  run_process w (calls s + (i - 1))
    (ffmpeg_argv w (resolve (output_input s) (now w))
                 (nth (i - 1) (items s) EmptyString)).

(** ** The converter's side of the contract

    ffmpeg is not part of the repository.  What the output folder holds
    is read off the trace under this contract: a run that exits with
    code 0 leaves at its output path (the argument before the last) the
    conversion of its input (the argument after [-i]); with [-y] as last
    argument it does so whether or not a file was there, without it an
    existing file stays.  A run that ends otherwise is taken to leave the
    folder as it was. *)

(** The files of the output folder: path to the source converted into it. *)
Definition disk := string -> option string.

Definition write (d : disk) (path source : string) : disk :=
  fun p => if String.eqb p path then Some source else d p.

Definition ffmpeg_effect (argv : list string) (o : process_outcome) (d : disk)
  : disk :=
  match o, argv with
  | Exited 0%Z, [_; _; input; _; _; _; _; output; flag] =>
      if String.eqb flag "-y" then write d output input
      else match d output with
           | Some _ => d
           | None => write d output input
           end
  | _, _ => d
  end.

Fixpoint disk_after (t : list event) (d : disk) : disk :=
  match t with
  | [] => d
  | Run argv o :: r => disk_after r (ffmpeg_effect argv o d)
  | _ :: r => disk_after r d
  end.

(** The values of the bar for the positions 1 to [total], and the check
    that they never decrease, stay within the bar's range and end with
    100. *)
Definition bar_values (total : nat) : list Z :=
  map (fun i => bar_value i total) (seq 1 total).

Fixpoint nondecreasing (l : list Z) : bool :=
  match l with
  | x :: (y :: _) as r => (x <=? y)%Z && nondecreasing r
  | _ => true
  end.

Definition bar_values_fine (total : nat) : bool :=
  nondecreasing (bar_values total)
  && forallb (fun v => (0 <=? v)%Z && (v <=? 100)%Z) (bar_values total)
  && (bar_value total total =? 100)%Z.

(** ** More of [DropArea], and the window as a whole *)

(** [dragEnterEvent] and [dragMoveEvent]: whether the event is accepted
    ([acceptProposedAction()]) or ignored, [urls] being the urls of its
    mime data. *)
Definition dragEnterEvent (urls : list string) : bool :=
  match urls with [] => false | _ :: _ => true end.

Definition dragMoveEvent (urls : list string) : bool :=
  match urls with [] => false | _ :: _ => true end.

(** What [dropEvent] lets into the list: a path that ends with [.mp4] in
    some case. *)
Definition ends_with_mp4 (path : string) : bool :=
  Str.endswith ".mp4" (Str.lower path).

(** Induction on a file-system tree: a property that holds of files, and
    of a directory when it holds of all that its entries name, holds of
    every tree. *)
Fixpoint node_induction (P : PathLib.node -> Prop)
         (HFile : P PathLib.File)
         (HDir : forall es, Forall (fun e => P (snd e)) es -> P (PathLib.Dir es))
         (n : PathLib.node) {struct n} : P n :=
  match n with
  | PathLib.File => HFile
  | PathLib.Dir es =>
      HDir es
        ((fix all (l : list (string * PathLib.node))
            : Forall (fun e => P (snd e)) l :=
            match l with
            | [] => Forall_nil _
            | e :: r =>
                Forall_cons e (node_induction P HFile HDir (snd e)) (all r)
            end) es)
  end.

(** [reaches n sub es]: going down from [n] through the directories
    named [sub], one after the other, ends in a directory whose entries
    are [es]. *)
Inductive reaches : PathLib.node -> list string -> list (string * PathLib.node)
                    -> Prop :=
| reaches_here es : reaches (PathLib.Dir es) [] es
| reaches_down es c x sub es' :
    In (c, x) es -> reaches x sub es' ->
    reaches (PathLib.Dir es) (c :: sub) es'.

(** The window as [ConverterApp.__init__] builds it: an empty list, an
    empty folder field, the bar at 0 and hidden. *)
Definition new_window : state := mkState [] EmptyString 0%Z false 0 [].

(** What the user does, as the event loop of [main] hands it to the
    window: a drag over the list, a drop on it (with the file system as
    it is then), a double click on a row, typing in the folder field,
    and a click on the button (with the world as it is then).  Actions
    are handled one after the other: none arrives while a batch runs. *)
Inductive action :=
| DragEnter (urls : list string)
| DragMove (urls : list string)
| Drop (fs : PathLib.filesystem) (urls : list string)
| DoubleClick (row : nat)
| Type_ (text : string)
| Click (w : world).

Definition handle (s : state) (a : action) : state :=
  match a with
  | DragEnter _ | DragMove _ => s
  | Drop fs urls =>
      mkState (fst (DropArea.dropEvent fs urls (items s))) (output_input s)
              (progress_value s) (progress_visible s) (calls s) (trace s)
  | DoubleClick row =>
      mkState (DropArea.remove_item row (items s)) (output_input s)
              (progress_value s) (progress_visible s) (calls s) (trace s)
  | Type_ text =>
      mkState (items s) text (progress_value s) (progress_visible s)
              (calls s) (trace s)
  | Click w => snd (convert_files w s)
  end.

(** The window after a session of actions. *)
Definition session (actions : list action) : state :=
  fold_left handle actions new_window.

(** ** Sample runs *)

Module Sample.

Definition today : datetime := mkDate 2024 3 7.

(** Every conversion succeeds but that of the second job. *)
Definition second_fails : world :=
  mkWorld (get_ffmpeg_path false "" "/app") today (fun _ => false) (fun _ => false)
          (fun n _ => if n =? 1 then Exited 1%Z else Exited 0%Z).

(** ffmpeg is not where [ffmpeg_path] says. *)
Definition no_ffmpeg : world :=
  mkWorld (get_ffmpeg_path false "" "/app") today (fun _ => false) (fun _ => false)
          (fun _ _ => FileNotFoundError).

(** The second process cannot be started, for another reason than a
    missing file (a [PermissionError], say). *)
Definition second_raises : world :=
  mkWorld (get_ffmpeg_path false "" "/app") today (fun _ => false) (fun _ => false)
          (fun n _ => if n =? 1 then OtherException else Exited 0%Z).


(** Every conversion succeeds. *)
Definition all_fine : world :=
  mkWorld (get_ffmpeg_path false "" "/app") today (fun _ => false) (fun _ => false)
          (fun _ _ => Exited 0%Z).

(** The window with [files] in the list and [folder] typed in. *)
Definition window (files : list string) (folder : string) : state :=
  mkState files folder 0%Z false 0 [].

Definition three_files : state :=
  window ["/videos/a.mp4"; "/videos/b.mp4"; "/videos/c.mp4"] "out".

Definition two_files : state :=
  window ["/videos/a.mp4"; "/videos/b.mp4"] "out".

(** A folder of four videos and a text file, one level of sub-folder;
    the working directory is the root. *)
Definition videos : PathLib.filesystem :=
  PathLib.mkFs
    (PathLib.Dir
       [("videos",
         PathLib.Dir
           [("a.mp4", PathLib.File); ("b.MP4", PathLib.File);
            ("notes.txt", PathLib.File);
            ("old", PathLib.Dir [("c.mp4", PathLib.File);
                                 ("d.Mp4", PathLib.File)])])])
    [].

(** Two files with the stem [clip], from two folders. *)
Definition same_stem : state :=
  window ["/monday/clip.mp4"; "/tuesday/clip.MP4"] "out".

End Sample.

(** * Properties *)

(** ** Reading a trace that grows *)

Section TraceReaders.

Variables t u : list event.

Lemma invocations_app : invocations (t ++ u) = invocations t ++ invocations u.
Proof.
  induction t as [|e r IH]; simpl; [reflexivity|].
  destruct e; simpl; rewrite IH; reflexivity.
Qed.

Lemma progress_values_app :
  progress_values (t ++ u) = progress_values t ++ progress_values u.
Proof.
  induction t as [|e r IH]; simpl; [reflexivity|].
  destruct e; simpl; rewrite IH; reflexivity.
Qed.

Lemma succeeded_app : succeeded (t ++ u) = succeeded t + succeeded u.
Proof.
  induction t as [|e r IH]; simpl; [reflexivity|].
  destruct e as [| |argv o| |]; simpl; try assumption.
  destruct o; simpl; try assumption. rewrite IH. lia.
Qed.

Lemma failures_app : failures (t ++ u) = failures t ++ failures u.
Proof.
  induction t as [|e r IH]; simpl; [reflexivity|].
  destruct e as [d| | | |]; simpl; try assumption.
  destruct d; simpl; rewrite IH; reflexivity.
Qed.

Lemma summaries_app : summaries (t ++ u) = summaries t ++ summaries u.
Proof.
  induction t as [|e r IH]; simpl; [reflexivity|].
  destruct e as [d| | | |]; simpl; try assumption.
  destruct d; simpl; rewrite IH; reflexivity.
Qed.

Lemma created_dirs_app : created_dirs (t ++ u) = created_dirs t ++ created_dirs u.
Proof.
  induction t as [|e r IH]; simpl; [reflexivity|].
  destruct e; simpl; rewrite IH; reflexivity.
Qed.

Lemma fatal_flag_app : fatal_flag (t ++ u) = fatal_flag t || fatal_flag u.
Proof.
  induction t as [|e r IH]; simpl; [reflexivity|].
  destruct e as [d| | | |]; simpl; try assumption.
  destruct d; simpl; auto.
Qed.

End TraceReaders.

Create Rewrite HintDb trace.
#[local] Hint Rewrite invocations_app progress_values_app succeeded_app
  failures_app summaries_app created_dirs_app fatal_flag_app : trace.

(** ** One turn of the loop *)

Lemma convert_one_turn w output_dir total_files i file s :
  turn w output_dir total_files i file s
       (fst (convert_one w output_dir total_files i file s))
       (snd (convert_one w output_dir total_files i file s)).
Proof.
  unfold convert_one.
  destruct (run_process w (calls s) (ffmpeg_argv w output_dir file))
    as [code| |] eqn:E.
  - destruct (Z.eqb_spec code 0) as [->|Hne].
    + cbn [fst snd]. unfold setValue, log; cbn.
      rewrite <- !app_assoc. cbn. now apply turn_converted.
    + cbn. unfold log; cbn. rewrite <- !app_assoc. cbn.
      now apply turn_failed.
  - cbn. unfold log; cbn. rewrite <- !app_assoc. cbn. now apply turn_not_found.
  - cbn. unfold log; cbn. now apply turn_raised.
Qed.

(** ** The loop *)

Ltac loop_turn w o tot i f s :=
  let T := fresh "T" in
  pose proof (convert_one_turn w o tot i f s) as T;
  destruct (convert_one w o tot i f s) as [? ?];
  cbn [fst snd] in T; inversion T; subst; clear T.

Ltac read_trace := autorewrite with trace; cbn.

(** What every run of the loop keeps and adds: the widgets' items and
    the folder field stay, the trace grows by the events of the jobs
    started, one process per job, in the order of [files]. *)
Lemma convert_loop_spec w o tot files :
  forall i s,
  exists t,
    let r := convert_loop w o tot i files s in
    trace (snd r) = trace s ++ t
    /\ items (snd r) = items s
    /\ output_input (snd r) = output_input s
    /\ progress_visible (snd r) = progress_visible s
    /\ summaries t = [] /\ created_dirs t = []
    /\ calls (snd r) = calls s + List.length (invocations t)
    /\ invocations t
       = map (ffmpeg_argv w o) (firstn (List.length (invocations t)) files)
    /\ incl (failures t) (firstn (List.length (invocations t)) files)
    /\ match fst r with
       | Next =>
           List.length (invocations t) = List.length files
           /\ succeeded t + List.length (failures t) = List.length files
           /\ fatal_flag t = false
       | Return =>
           fatal_flag t = true
           /\ succeeded t + List.length (failures t) + 1
              = List.length (invocations t)
           /\ incl (failures t)
                   (firstn (List.length (invocations t) - 1) files)
           /\ exists t0 argv,
               t = t0 ++ [Run argv FileNotFoundError;
                          Dialog (FfmpegNotFound (ffmpeg_path w))]
       | Raise =>
           fatal_flag t = false
           /\ exists t0 argv, t = t0 ++ [Run argv OtherException]
       | Continue => False
       end.
Proof.
  induction files as [|f rest IH]; intros i s.
  - exists []. cbn. rewrite app_nil_r. repeat split; auto. apply incl_nil_l.
  - cbn [convert_loop]. loop_turn w o tot i f s.
    + match goal with |- context [convert_loop w o tot (S i) rest ?s1] =>
        destruct (IH (S i) s1)
          as (t & Ht & Hi & Ho & Hv & Hs & Hd & Hc & Hinv & Hf & Hm) end.
      cbn in Ht, Hi, Ho, Hv, Hc.
      exists ([Run (ffmpeg_argv w o f) (Exited 0);
               SetValue (bar_value i tot); ProcessEvents] ++ t).
      cbn zeta. rewrite Ht, Hi, Ho, Hv, Hc, <- app_assoc.
      read_trace. rewrite Hs, Hd.
      repeat split; auto; try lia.
      * rewrite <- Hinv. reflexivity.
      * intros x Hx. right. now apply Hf.
      * destruct (fst (convert_loop w o tot (S i) rest _)); auto.
        -- destruct Hm as (? & ? & ?). repeat split; auto; lia.
        -- destruct Hm as (? & Hn & Hf' & t0 & argv & ->).
           repeat split; auto; try lia.
           { rewrite Nat.sub_0_r.
             destruct (List.length (invocations _)) as [|n]; [lia|].
             cbn in Hf' |- *. rewrite Nat.sub_0_r in Hf'.
             intros x Hx. right. now apply Hf'. }
           exists ([Run (ffmpeg_argv w o f) (Exited 0);
                    SetValue (bar_value i tot); ProcessEvents] ++ t0), argv.
           now rewrite <- app_assoc.
        -- destruct Hm as (? & t0 & argv & ->). split; auto.
           exists ([Run (ffmpeg_argv w o f) (Exited 0);
                    SetValue (bar_value i tot); ProcessEvents] ++ t0), argv.
           now rewrite <- app_assoc.
    + match goal with |- context [convert_loop w o tot (S i) rest ?s1] =>
        destruct (IH (S i) s1)
          as (t & Ht & Hi & Ho & Hv & Hs & Hd & Hc & Hinv & Hf & Hm) end.
      cbn in Ht, Hi, Ho, Hv, Hc.
      exists ([Run (ffmpeg_argv w o f) (Exited code);
               Dialog (ConversionError f code)] ++ t).
      cbn zeta. rewrite Ht, Hi, Ho, Hv, Hc, <- app_assoc.
      read_trace. rewrite Hs, Hd.
      assert (Hz : (code =? 0)%Z = false) by now apply Z.eqb_neq.
      rewrite Hz.
      repeat split; auto; try lia.
      * rewrite <- Hinv. reflexivity.
      * intros x [<-|Hx]; [now left|right; now apply Hf].
      * destruct (fst (convert_loop w o tot (S i) rest _)); auto.
        -- destruct Hm as (? & ? & ?). repeat split; auto; lia.
        -- destruct Hm as (? & Hn & Hf' & t0 & argv & ->).
           repeat split; auto; try lia.
           { rewrite Nat.sub_0_r.
             destruct (List.length (invocations _)) as [|n]; [lia|].
             cbn in Hf' |- *. rewrite Nat.sub_0_r in Hf'.
             intros x [<-|Hx]; [now left|right; now apply Hf']. }
           exists ([Run (ffmpeg_argv w o f) (Exited code);
                    Dialog (ConversionError f code)] ++ t0), argv.
           now rewrite <- app_assoc.
        -- destruct Hm as (? & t0 & argv & ->). split; auto.
           exists ([Run (ffmpeg_argv w o f) (Exited code);
                    Dialog (ConversionError f code)] ++ t0), argv.
           now rewrite <- app_assoc.
    + exists [Run (ffmpeg_argv w o f) FileNotFoundError;
              Dialog (FfmpegNotFound (ffmpeg_path w))].
      cbn. repeat split; auto; try lia; try apply incl_nil_l.
      now exists [], (ffmpeg_argv w o f).
    + exists [Run (ffmpeg_argv w o f) OtherException].
      cbn. repeat split; auto; try lia; try apply incl_nil_l.
      now exists [], (ffmpeg_argv w o f).
Qed.

(** ** [convert_files], case by case *)

Lemma convert_files_empty w s :
  items s = [] -> convert_files w s = (EmptyBatch, log (Dialog NoFiles) s).
Proof. unfold convert_files. now intros ->. Qed.

Lemma convert_files_no_folder w s :
  items s <> [] -> folder_ready w s = false ->
  convert_files w s
  = (Raised, log (Makedirs (resolve (output_input s) (now w))) s).
Proof.
  unfold convert_files, folder_ready. intros Hne Hf.
  destruct (items s); [congruence|].
  apply orb_false_iff in Hf as [-> Hm].
  apply negb_false_iff in Hm. now rewrite Hm.
Qed.

Lemma convert_files_loop w s :
  items s <> [] -> folder_ready w s = true ->
  convert_files w s
  = match convert_loop w (resolve (output_input s) (now w))
                       (List.length (items s)) 1 (items s) (prepared w s) with
    | (Return, s3) => (Fatal, s3)
    | (Raise, s3) => (Raised, s3)
    | (_, s3) =>
        (Completed,
         clear (log (Dialog (Done (List.length (items s))
                                  (resolve (output_input s) (now w))))
                    (set_visible false s3)))
    end.
Proof.
  unfold convert_files, folder_ready, prepared. intros Hne Hf.
  destruct (items s) as [|f r] eqn:E; [congruence|].
  destruct (path_exists w _) eqn:Hp.
  - reflexivity.
  - cbn in Hf. rewrite Hf. reflexivity.
Qed.

Lemma prepared_trace w s :
  exists t0,
    trace (prepared w s) = trace s ++ t0 ++ [SetValue 0%Z]
    /\ (t0 = [] \/ t0 = [Makedirs (resolve (output_input s) (now w))])
    /\ items (prepared w s) = items s
    /\ output_input (prepared w s) = output_input s
    /\ calls (prepared w s) = calls s.
Proof.
  unfold prepared. destruct (path_exists w _).
  - exists []. cbn. auto.
  - exists [Makedirs (resolve (output_input s) (now w))]. cbn.
    rewrite <- app_assoc. auto 6.
Qed.

(** ** The empty batch *)

(** C6: with no file in the list, [convert_files] stops at the warning,
    whatever the output folder field and the date are: no directory is
    created, no process is started and the progress bar is not touched. *)
Theorem empty_batch_stops_before_any_work (w : world) (s : state) :
  items s = [] ->
  fst (convert_files w s) = EmptyBatch
  /\ trace (snd (convert_files w s)) = trace s ++ [Dialog NoFiles]
  /\ created_dirs (trace (snd (convert_files w s))) = created_dirs (trace s)
  /\ invocations (trace (snd (convert_files w s))) = invocations (trace s)
  /\ calls (snd (convert_files w s)) = calls s
  /\ progress_values (trace (snd (convert_files w s))) = progress_values (trace s)
  /\ progress_value (snd (convert_files w s)) = progress_value s
  /\ progress_visible (snd (convert_files w s)) = progress_visible s.
Proof.
  intros He. rewrite (convert_files_empty w s He). cbn.
  read_trace. rewrite !app_nil_r. repeat split; reflexivity.
Qed.

(** ** The list of pending files *)

(** C10: when the batch stops because ffmpeg was not found, the list
    widget holds what it held, in the same order, and no "Done" box is
    shown; the list is emptied by [clear()] only when the run reaches its
    end, which is also the only case in which the "Done" box is shown. *)
Theorem fatal_abort_keeps_pending_files (w : world) (s : state) :
  exists t,
    trace (snd (convert_files w s)) = trace s ++ t
    /\ (fst (convert_files w s) = Fatal ->
        items (snd (convert_files w s)) = items s
        /\ summaries t = []
        /\ exists t0 argv,
            t = t0 ++ [Run argv FileNotFoundError;
                       Dialog (FfmpegNotFound (ffmpeg_path w))])
    /\ (fst (convert_files w s) = Completed ->
        items (snd (convert_files w s)) = []
        /\ summaries t
           = [(List.length (items s), resolve (output_input s) (now w))])
    /\ (fst (convert_files w s) <> Completed ->
        items (snd (convert_files w s)) = items s /\ summaries t = []).
Proof.
  destruct (items s) as [|f0 r0] eqn:E.
  - rewrite (convert_files_empty w s E). exists [Dialog NoFiles]. cbn.
    rewrite E. repeat split; auto; discriminate.
  - assert (Hne : items s <> []) by (rewrite E; discriminate).
    destruct (folder_ready w s) eqn:Hf.
    + rewrite (convert_files_loop w s Hne Hf).
      destruct (prepared_trace w s) as (t0 & Hp & Ht0 & Hpi & _ & _).
      destruct (convert_loop_spec w (resolve (output_input s) (now w))
                  (List.length (items s)) (items s) 1 (prepared w s))
        as (t & Ht & Hi & _ & _ & Hs & _ & _ & _ & _ & Hm).
      cbn zeta in *.
      assert (Hs0 : summaries (t0 ++ [SetValue 0%Z]) = [])
        by (destruct Ht0 as [-> | ->]; reflexivity).
      destruct (convert_loop w _ _ 1 (items s) (prepared w s)) as [fl s3].
      cbn [fst snd] in *. rewrite Hp in Ht. rewrite Hpi in Hi.
      destruct fl.
      * exists ((t0 ++ [SetValue 0%Z]) ++ t
                ++ [Dialog (Done (List.length (items s))
                                 (resolve (output_input s) (now w)))]).
        cbn. rewrite Ht, <- !app_assoc. read_trace.
        rewrite Hs. cbn. rewrite E in *.
        repeat split; auto; try discriminate;
          try (destruct Ht0 as [-> | ->]; reflexivity); congruence.
      * contradiction.
      * exists ((t0 ++ [SetValue 0%Z]) ++ t). cbn.
        rewrite Ht, <- !app_assoc. read_trace. rewrite Hs, Hi, E.
        destruct Hm as (_ & _ & _ & t1 & argv & ->).
        repeat split; auto; try discriminate;
          try (destruct Ht0 as [-> | ->]; reflexivity).
        exists (t0 ++ [SetValue 0%Z] ++ t1), argv.
        now rewrite <- !app_assoc.
      * exists ((t0 ++ [SetValue 0%Z]) ++ t). cbn.
        rewrite Ht, <- !app_assoc. read_trace. rewrite Hs, Hi, E.
        repeat split; auto; try discriminate;
          try (destruct Ht0 as [-> | ->]; reflexivity).
    + rewrite (convert_files_no_folder w s Hne Hf).
      exists [Makedirs (resolve (output_input s) (now w))]. cbn.
      rewrite E. repeat split; auto; discriminate.
Qed.

(** ** The converter is not found *)


(** ** Progress *)

(** The loop passes to the progress bar the value for position [p] exactly
    when the job at [p] exits with code 0; [ps] lists those positions. *)
Lemma convert_loop_progress w o tot files :
  forall i s,
  exists ps,
    progress_values (trace (snd (convert_loop w o tot i files s)))
    = progress_values (trace s) ++ map (fun p => bar_value p tot) ps
    /\ StronglySorted lt ps
    /\ forall p,
        In p ps <->
        exists j, p = i + j
                  /\ j < calls (snd (convert_loop w o tot i files s)) - calls s
                  /\ run_process w (calls s + j)
                       (ffmpeg_argv w o (nth j files EmptyString)) = Exited 0.
Proof.
  induction files as [|f rest IH]; intros i s.
  - exists []. cbn. rewrite app_nil_r. repeat split; try constructor.
    + intros [].
    + intros (j & _ & Hj & _). lia.
  - cbn [convert_loop].
    pose proof (convert_one_turn w o tot i f s) as T.
    destruct (convert_one w o tot i f s) as [fl s1]. cbn [fst snd] in T.
    assert (Hgrow : forall s2,
              calls s2 <= calls (snd (convert_loop w o tot (S i) rest s2))).
    { intros s2.
      destruct (convert_loop_spec w o tot rest (S i) s2)
        as (t & _ & _ & _ & _ & _ & _ & Hc & _).
      cbn zeta in Hc. lia. }
    inversion T; subst; clear T.
    + match goal with |- context [convert_loop w o tot (S i) rest ?s1] =>
        destruct (IH (S i) s1) as (ps & Hv & Hs & Hin);
        pose proof (Hgrow s1) as Hg
      end.
      cbn [calls trace] in *.
      exists (i :: ps). rewrite Hv. read_trace. rewrite <- app_assoc.
      split; [reflexivity|]. split.
      * constructor; [assumption|]. apply Forall_forall. intros p Hp.
        apply Hin in Hp as (j & -> & _). lia.
      * intros p. cbn [In]. rewrite Hin. split.
        -- intros [<-|(j & -> & Hj & Hrun)].
           ++ exists 0. rewrite !Nat.add_0_r. cbn. split; [reflexivity|].
              split; [lia|assumption].
           ++ exists (S j). cbn [nth]. split; [lia|]. split; [lia|].
              rewrite <- Hrun. f_equal. lia.
        -- intros (j & -> & Hj & Hrun). destruct j as [|j].
           ++ left. lia.
           ++ right. exists j. split; [lia|]. split; [lia|].
              cbn [nth] in Hrun. rewrite <- Hrun. f_equal. lia.
    + match goal with |- context [convert_loop w o tot (S i) rest ?s1] =>
        destruct (IH (S i) s1) as (ps & Hv & Hs & Hin);
        pose proof (Hgrow s1) as Hg
      end.
      cbn [calls trace] in *.
      exists ps. rewrite Hv. read_trace. rewrite app_nil_r.
      split; [reflexivity|]. split; [assumption|].
      intros p. rewrite Hin. split.
      * intros (j & -> & Hj & Hrun).
        exists (S j). cbn [nth]. split; [lia|]. split; [lia|].
        rewrite <- Hrun. f_equal. lia.
      * intros (j & -> & Hj & Hrun). destruct j as [|j].
        -- rewrite Nat.add_0_r in Hrun. cbn in Hrun. congruence.
        -- exists j. split; [lia|]. split; [lia|].
           cbn [nth] in Hrun. rewrite <- Hrun. f_equal. lia.
    + exists []. cbn [fst snd calls trace map].
      split; [read_trace; now rewrite !app_nil_r|]. split; [constructor|].
      intros p. split; [intros []|]. intros (j & -> & Hj & Hrun).
      assert (j = 0) by lia. subst j.
      rewrite Nat.add_0_r in Hrun. cbn in Hrun. congruence.
    + exists []. cbn [fst snd calls trace map].
      split; [read_trace; now rewrite !app_nil_r|]. split; [constructor|].
      intros p. split; [intros []|]. intros (j & -> & Hj & Hrun).
      assert (j = 0) by lia. subst j.
      rewrite Nat.add_0_r in Hrun. cbn in Hrun. congruence.
Qed.

(** C2, as the claim states it, fails: a job that exits with a non-zero
    code passes nothing to the progress bar.  With three files of which
    the second fails, the bar gets 33 and 100 after the reset to 0, and
    never the value 66 of position 2; with two files of which the last
    fails, the run completes and the bar never gets 100. *)
Lemma progress_skips_failed_jobs :
  job_outcome Sample.second_fails Sample.three_files 2 = Exited 1%Z
  /\ fst (convert_files Sample.second_fails Sample.three_files) = Completed
  /\ progress_values
       (trace (snd (convert_files Sample.second_fails Sample.three_files)))
     = [0; 33; 100]%Z
  /\ bar_value 2 3 = 66%Z
  /\ ~ In (bar_value 2 3)
          (progress_values
             (trace (snd (convert_files Sample.second_fails Sample.three_files))))
  /\ fst (convert_files Sample.second_fails Sample.two_files) = Completed
  /\ progress_values
       (trace (snd (convert_files Sample.second_fails Sample.two_files)))
     = [0; 50]%Z.
Proof.
  assert (E : progress_values
       (trace (snd (convert_files Sample.second_fails Sample.three_files)))
     = [0; 33; 100]%Z) by (vm_compute; reflexivity).
  rewrite E. repeat split; try (vm_compute; reflexivity).
  vm_compute. intros [H|[H|[H|[]]]]; discriminate.
Qed.

(** C2, amended: in a run over a non-empty list whose output folder is
    there, the bar is reset to 0 and then gets [int(i / total * 100)] for
    the positions [i] of the jobs that were run and exited with code 0,
    and for no other: a job that fails passes nothing.  The positions come
    in strictly increasing order, so the fractions [i / total] increase;
    in a run that completes every job was run, and the last position,
    where the fraction is 1, is reached exactly when the last job
    succeeds. *)
Theorem progress_follows_successful_jobs (w : world) (s : state) :
  items s <> [] ->
  folder_ready w s = true ->
  exists ps,
    progress_values (trace (snd (convert_files w s)))
    = progress_values (trace s)
      ++ 0%Z :: map (fun i => bar_value i (List.length (items s))) ps
    /\ StronglySorted lt ps
    /\ (forall i,
          In i ps <->
          1 <= i <= calls (snd (convert_files w s)) - calls s
          /\ job_outcome w s i = Exited 0)
    /\ (fst (convert_files w s) = Completed ->
        calls (snd (convert_files w s)) - calls s = List.length (items s)
        /\ (In (List.length (items s)) ps <->
            job_outcome w s (List.length (items s)) = Exited 0)).
Proof.
  intros Hne Hf. rewrite (convert_files_loop w s Hne Hf).
  destruct (prepared_trace w s) as (t0 & Hp & Ht0 & Hpi & Hpo & Hpc).
  set (o := resolve (output_input s) (now w)) in *.
  set (tot := List.length (items s)) in *.
  destruct (convert_loop_progress w o tot (items s) 1 (prepared w s))
    as (ps & Hv & Hs & Hin).
  destruct (convert_loop_spec w o tot (items s) 1 (prepared w s))
    as (t & _ & _ & _ & _ & _ & _ & Hcalls & _ & _ & Hm).
  cbn zeta in *.
  assert (Hv0 : progress_values (trace (prepared w s))
                = progress_values (trace s) ++ [0%Z]).
  { rewrite Hp. read_trace.
    destruct Ht0 as [-> | ->]; reflexivity. }
  assert (Hmem : forall i,
             In i ps <->
             1 <= i <= calls (snd (convert_loop w o tot 1 (items s)
                                                (prepared w s))) - calls s
             /\ job_outcome w s i = Exited 0).
  { intros i. rewrite Hin, Hpc. unfold job_outcome. fold o. split.
    - intros (j & -> & Hj & Hrun). cbn. rewrite Nat.sub_0_r.
      split; [lia|assumption].
    - intros (Hi & Hrun). exists (i - 1). split; [lia|]. split; [lia|assumption]. }
  exists ps.
  destruct (convert_loop w o tot 1 (items s) (prepared w s)) as [fl s3].
  cbn [fst snd] in *. rewrite Hv0, <- app_assoc in Hv. cbn [app] in Hv.
  assert (Hlen : 1 <= tot)
    by (unfold tot; destruct (items s); [congruence|cbn; lia]).
  destruct fl; cbn [fst snd trace calls clear log set_visible].
  - split; [rewrite progress_values_app, Hv; cbn; now rewrite app_nil_r|].
    split; [assumption|]. split; [exact Hmem|].
    intros _. destruct Hm as (Hn & _). split; [lia|].
    rewrite Hmem. split; [tauto|]. intros Hrun. split; [lia|assumption].
  - contradiction.
  - split; [exact Hv|]. split; [assumption|]. split; [exact Hmem|discriminate].
  - split; [exact Hv|]. split; [assumption|]. split; [exact Hmem|discriminate].
Qed.

(** ** The summary *)

(** X1: in a run that completes, every job either succeeded or is in
    the list of failures (succeeded + failed = total), and the "Done" box
    counts all of them. *)
Lemma completed_run_counts (w : world) (s : state) :
  fst (convert_files w s) = Completed ->
  exists t,
    trace (snd (convert_files w s)) = trace s ++ t
    /\ succeeded t + List.length (failures t) = List.length (items s)
    /\ summaries t = [(List.length (items s), resolve (output_input s) (now w))].
Proof.
  intros Hc.
  destruct (items s) as [|f0 r0] eqn:E.
  { rewrite (convert_files_empty w s E) in Hc. discriminate. }
  assert (Hne : items s <> []) by (rewrite E; discriminate).
  destruct (folder_ready w s) eqn:Hf.
  2:{ rewrite (convert_files_no_folder w s Hne Hf) in Hc. discriminate. }
  rewrite (convert_files_loop w s Hne Hf) in Hc |- *.
  destruct (prepared_trace w s) as (t0 & Hp & Ht0 & _).
  destruct (convert_loop_spec w (resolve (output_input s) (now w))
              (List.length (items s)) (items s) 1 (prepared w s))
    as (t & Ht & _ & _ & _ & Hs & _ & _ & _ & _ & Hm).
  cbn zeta in *.
  destruct (convert_loop w _ _ 1 (items s) (prepared w s)) as [fl s3].
  cbn [fst snd] in *.
  destruct fl; try discriminate; try contradiction.
  destruct Hm as (_ & Hn & _).
  exists ((t0 ++ [SetValue 0%Z]) ++ t
          ++ [Dialog (Done (List.length (items s))
                           (resolve (output_input s) (now w)))]).
  cbn. rewrite Ht, Hp, <- !app_assoc. read_trace. rewrite Hs, E in *.
  cbn in Hn.
  destruct Ht0 as [-> | ->]; cbn; rewrite app_nil_r, Nat.add_0_r;
    repeat split; auto.
Qed.

(** C3 at a run of two files of which the second fails: the run
    completes, one conversion succeeded and one is reported as failed,
    and the "Done" box says that 2 files were converted. *)
Theorem summary_counts_failed_files_as_converted :
  fst (convert_files Sample.second_fails Sample.two_files) = Completed
  /\ succeeded (trace (snd (convert_files Sample.second_fails Sample.two_files)))
     = 1
  /\ failures (trace (snd (convert_files Sample.second_fails Sample.two_files)))
     = ["/videos/b.mp4"]
  /\ summaries (trace (snd (convert_files Sample.second_fails Sample.two_files)))
     = [(2, "out")]
  /\ done_text 2 "out" = "Converted 2 files into 'out'".
Proof. repeat split; vm_compute; reflexivity. Qed.

(** ** Strings and paths *)

Section StrFacts.

Local Open Scope string_scope.

Lemma append_assoc (a b c : string) : (a ++ b) ++ c = a ++ b ++ c.
Proof. induction a as [|x a IH]; cbn; [reflexivity|now rewrite IH]. Qed.

Lemma append_nil_r (a : string) : a ++ "" = a.
Proof. induction a as [|x a IH]; cbn; [reflexivity|now rewrite IH]. Qed.

Lemma length_append (a b : string) : length (a ++ b) = length a + length b.
Proof. induction a as [|x a IH]; cbn; [reflexivity|now rewrite IH]. Qed.

Lemma contains_append (c : ascii) (a b : string) :
  Str.contains c (a ++ b) = Str.contains c a || Str.contains c b.
Proof.
  induction a as [|x a IH]; cbn; [reflexivity|].
  now rewrite IH, orb_assoc.
Qed.

Lemma rfind_absent (c : ascii) (t : string) :
  Str.contains c t = false -> Str.rfind c t = None.
Proof.
  induction t as [|x t IH]; cbn; [reflexivity|].
  intros H. apply orb_false_iff in H as [Hx Ht].
  now rewrite (IH Ht), Hx.
Qed.

(** The last occurrence of [c] in [s ++ c ++ t], when [t] has none,
    is right after [s]. *)
Lemma rfind_last (c : ascii) (s t : string) :
  Str.contains c t = false ->
  Str.rfind c (s ++ String c t) = Some (length s).
Proof.
  intros Ht. induction s as [|x s IH]; cbn.
  - now rewrite (rfind_absent c t Ht), Ascii.eqb_refl.
  - now rewrite IH.
Qed.

Lemma substring_whole (t : string) : substring 0 (length t) t = t.
Proof. induction t as [|x t IH]; cbn; [reflexivity|now rewrite IH]. Qed.

Lemma substring_skip (s t : string) (m : nat) :
  substring (length s) m (s ++ t) = substring 0 m t.
Proof. induction s as [|x s IH]; cbn; [reflexivity|exact IH]. Qed.

Lemma substring_head (s t : string) : substring 0 (length s) (s ++ t) = s.
Proof.
  induction s as [|x s IH]; cbn.
  - now destruct t.
  - now rewrite IH.
Qed.

Lemma slice_from_append (s t : string) : Str.slice_from (length s) (s ++ t) = t.
Proof.
  unfold Str.slice_from.
  rewrite substring_skip, length_append.
  replace (length s + length t - length s) with (length t) by lia.
  apply substring_whole.
Qed.

Lemma slice_to_append (s t : string) : Str.slice_to (length s) (s ++ t) = s.
Proof. apply substring_head. Qed.

(** A string that ends with the character [c] is some string followed
    by [c]. *)
Lemma endswith_char (c : ascii) (a : string) :
  Str.endswith (String c "") a = true -> exists a', a = a' ++ String c "".
Proof.
  unfold Str.endswith, Str.slice_from. cbn [length].
  intros H. apply andb_true_iff in H as [Hl He].
  apply Nat.leb_le in Hl. apply String.eqb_eq in He.
  revert Hl He. induction a as [|x a IH]; cbn [length]; intros Hl He.
  - lia.
  - destruct a as [|y a].
    + cbn in He. exists "". cbn. congruence.
    + cbn [length] in *.
      replace (S (S (length a)) - 1) with (S (length a)) in He by lia.
      replace (S (S (length a)) - S (length a)) with 1 in He by lia.
      cbn [substring] in He.
      destruct IH as [a' Ha'].
      * lia.
      * replace (S (length a) - 1) with (length a) by lia.
        replace (S (length a) - length a) with 1 by lia.
        exact He.
      * exists (String x a'). cbn. now rewrite <- Ha'.
Qed.

(** [os.path.basename] of a name without separator, alone or after a
    directory part. *)
Lemma basename_plain (n : string) :
  Str.contains "/" n = false -> OsPath.basename n = n.
Proof. intros H. unfold OsPath.basename. now rewrite (rfind_absent _ _ H). Qed.

Lemma basename_after_sep (d n : string) :
  Str.contains "/" n = false -> OsPath.basename (d ++ "/" ++ n) = n.
Proof.
  intros H. unfold OsPath.basename. cbn [append].
  rewrite (rfind_last "/" d n H).
  replace (S (length d)) with (length (d ++ "/"))
    by (rewrite length_append; cbn; lia).
  replace (d ++ String "/" n) with ((d ++ "/") ++ n)
    by (now rewrite append_assoc).
  apply slice_from_append.
Qed.

(** [os.path.splitext] of a name [stem.ext]: the extension is what
    follows the last dot, provided the stem is not made of dots only. *)
Lemma splitext_name (stem ext : string) :
  Str.contains "/" stem = false -> Str.all_char "." stem = false ->
  Str.contains "/" ext = false -> Str.contains "." ext = false ->
  OsPath.splitext (stem ++ "." ++ ext) = (stem, "." ++ ext).
Proof.
  intros Hs Hd He Hx. unfold OsPath.splitext. cbn [append].
  rewrite (rfind_last "." stem ext Hx).
  assert (Hn : Str.contains "/" (stem ++ String "." ext) = false)
    by (rewrite contains_append; cbn; now rewrite Hs, He).
  rewrite (rfind_absent _ _ Hn). cbn [Nat.leb andb].
  unfold Str.slice. rewrite Nat.sub_0_r, substring_head, Hd. cbn [negb].
  now rewrite slice_to_append, slice_from_append.
Qed.

Lemma base_name_of (dir stem ext : string) :
  dir = "" \/ Str.endswith "/" dir = true ->
  Str.contains "/" stem = false -> Str.all_char "." stem = false ->
  Str.contains "/" ext = false -> Str.contains "." ext = false ->
  base_name (dir ++ stem ++ "." ++ ext) = stem.
Proof.
  intros Hdir Hs Hd He Hx. unfold base_name.
  assert (Hn : Str.contains "/" (stem ++ "." ++ ext) = false)
    by (rewrite contains_append; cbn; now rewrite Hs, He).
  assert (Hb : OsPath.basename (dir ++ stem ++ "." ++ ext) = stem ++ "." ++ ext).
  { destruct Hdir as [-> | Hend].
    - now apply basename_plain.
    - apply endswith_char in Hend as [d ->].
      rewrite append_assoc. now apply basename_after_sep. }
  rewrite Hb, splitext_name by assumption. reflexivity.
Qed.

Lemma basename_join (out n : string) :
  Str.contains "/" n = false ->
  OsPath.basename (OsPath.join out n) = n.
Proof.
  intros Hn. unfold OsPath.join.
  assert (Hp : String.prefix "/" n = false).
  { destruct n as [|x n]; [reflexivity|]. cbn [Str.contains] in Hn.
    apply orb_false_iff in Hn as [Hx _]. cbn [String.prefix].
    destruct (ascii_dec "/" x) as [<-|?]; [|reflexivity].
    rewrite Ascii.eqb_refl in Hx. discriminate. }
  rewrite Hp.
  destruct (Str.is_empty out) eqn:Ho; cbn [orb].
  - destruct out; [|discriminate]. now apply basename_plain.
  - destruct (Str.endswith "/" out) eqn:Hend.
    + apply endswith_char in Hend as [d ->].
      rewrite append_assoc. now apply basename_after_sep.
    + now apply basename_after_sep.
Qed.

End StrFacts.

(** The example of the specification: [clip.MP4] and [clip.mp4] both
    give [clip.mov], in every output folder. *)
Example clip_MP4_gives_clip_mov (output_dir : string) :
  OsPath.basename (output_file output_dir "clip.MP4") = "clip.mov"
  /\ OsPath.basename (output_file output_dir "clip.mp4") = "clip.mov".
Proof.
  split; unfold output_file.
  - assert (H : base_name "clip.MP4" = "clip")
      by (apply (base_name_of "" "clip" "MP4"); auto).
    rewrite H. now apply basename_join.
  - assert (H : base_name "clip.mp4" = "clip")
      by (apply (base_name_of "" "clip" "mp4"); auto).
    rewrite H. now apply basename_join.
Qed.

(** ** The output folder's name *)

Section StripFacts.

Local Open Scope string_scope.

Lemma lstrip_split (s : string) :
  exists l, s = l ++ Str.lstrip s
            /\ Str.all_space l = true
            /\ Str.starts_with_space (Str.lstrip s) = false.
Proof.
  induction s as [|c s (l & Hs & Hl & Hn)]; cbn.
  - now exists "".
  - destruct (Str.isspace c) eqn:Hc.
    + exists (String c l). cbn. rewrite Hc, Hl. rewrite <- Hs. auto.
    + exists "". cbn. auto.
Qed.

Lemma all_space_prefix (a b : string) :
  Str.all_space (a ++ b) = true -> Str.all_space a = true.
Proof.
  induction a as [|x a IHa]; cbn; [reflexivity|].
  intros Hab. apply andb_true_iff in Hab as [Hx Hab].
  now rewrite Hx, (IHa Hab).
Qed.

Lemma all_space_ends (a : string) :
  a <> "" -> Str.all_space a = true -> Str.ends_with_space a = true.
Proof.
  induction a as [|x a IHa]; [congruence|]. cbn. intros _ Hxa.
  apply andb_true_iff in Hxa as [Hx Hxa].
  destruct a; [assumption|]. apply IHa; [discriminate|assumption].
Qed.

Lemma rstrip_split (s : string) :
  exists r, s = Str.rstrip s ++ r
            /\ Str.all_space r = true
            /\ Str.ends_with_space (Str.rstrip s) = false
            /\ (Str.starts_with_space s = false ->
                Str.starts_with_space (Str.rstrip s) = false).
Proof.
  induction s as [|c s (r & Hs & Hr & He & Hb)]; cbn.
  - now exists "".
  - destruct (Str.isspace c && Str.is_empty (Str.rstrip s)) eqn:Hc.
    + apply andb_true_iff in Hc as [Hc He'].
      destruct (Str.rstrip s); [|discriminate]. cbn in Hs. subst r.
      exists (String c s). cbn. rewrite Hc, Hr. auto.
    + exists r. cbn [append]. rewrite <- Hs. split; [reflexivity|].
      split; [assumption|]. split; [|cbn; auto].
      cbn. destruct (Str.rstrip s) eqn:E; [|assumption].
      cbn in Hc. now rewrite andb_true_r in Hc.
Qed.

(** [strip] cuts its argument into white space, a trimmed middle that it
    returns, and white space. *)
Lemma strip_split (s : string) :
  exists l r, s = l ++ Str.strip s ++ r
              /\ Str.all_space l = true /\ Str.all_space r = true
              /\ Str.trimmed (Str.strip s) = true.
Proof.
  destruct (lstrip_split s) as (l & Hs & Hl & Hn).
  destruct (rstrip_split (Str.lstrip s)) as (r & Hs' & Hr & He & Hb).
  exists l, r. unfold Str.strip, Str.trimmed.
  rewrite <- Hs', <- Hs, He, (Hb Hn). auto.
Qed.

Lemma digit_cases (n : nat) :
  Str.isdigit (Str.digit n) = true /\ Str.digit_value (Str.digit n) = n mod 10.
Proof.
  unfold Str.digit. pose proof (Nat.mod_upper_bound n 10 ltac:(lia)) as H.
  remember (n mod 10) as m eqn:E. clear E.
  do 10 (destruct m as [|m]; [split; reflexivity|]). lia.
Qed.

Lemma two_digits_spell (n : nat) :
  n < 100 -> 10 * (10 * 0 + (n / 10) mod 10) + n mod 10 = n.
Proof.
  intros H.
  rewrite (Nat.mod_small (n / 10) 10)
    by (apply Nat.Div0.div_lt_upper_bound; lia).
  pose proof (Nat.div_mod_eq n 10). lia.
Qed.

Lemma four_digits_spell (n : nat) :
  n < 10 * 1000 ->
  10 * (10 * (10 * (10 * 0 + (n / 1000) mod 10) + (n / 100) mod 10)
        + (n / 10) mod 10) + n mod 10 = n.
Proof.
  intros H.
  rewrite (Nat.mod_small (n / 1000) 10)
    by (apply Nat.Div0.div_lt_upper_bound; lia).
  pose proof (Nat.div_mod_eq n 10) as E1.
  pose proof (Nat.div_mod_eq (n / 10) 10) as E2.
  pose proof (Nat.div_mod_eq (n / 100) 10) as E3.
  rewrite Nat.Div0.div_div in E2. rewrite Nat.Div0.div_div in E3.
  change (10 * 10) with 100 in E2. change (100 * 10) with 1000 in E3.
  lia.
Qed.

(** The digits of a date's fields, and the numbers they spell. *)
Lemma strftime_Ymd_shape (d : datetime) :
  valid_date d = true ->
  Str.digits 4 (Str.four_digits (year d)) = true
  /\ Str.digits 2 (Str.two_digits (month d)) = true
  /\ Str.digits 2 (Str.two_digits (day d)) = true
  /\ Str.to_nat (Str.four_digits (year d)) = year d
  /\ Str.to_nat (Str.two_digits (month d)) = month d
  /\ Str.to_nat (Str.two_digits (day d)) = day d.
Proof.
  unfold valid_date. intros H.
  repeat (apply andb_true_iff in H as [H ?]).
  repeat match goal with
         | H : Nat.leb _ _ = true |- _ => apply Nat.leb_le in H
         | H : Nat.ltb _ _ = true |- _ => apply Nat.ltb_lt in H
         end.
  unfold Str.digits, Str.four_digits, Str.two_digits, Str.to_nat.
  cbn [length Str.all_digits Str.to_nat_from Nat.eqb andb].
  repeat match goal with
         | |- context [Str.isdigit (Str.digit ?n)] =>
             rewrite (proj1 (digit_cases n))
         | |- context [Str.digit_value (Str.digit ?n)] =>
             rewrite (proj2 (digit_cases n))
         end.
  cbn [andb]. repeat split.
  - apply four_digits_spell. lia.
  - apply two_digits_spell. lia.
  - apply two_digits_spell. lia.
Qed.

End StripFacts.

(** C7: for every text of the field and every date, the folder's name
    is the text without the white space around it when something is
    left, and otherwise [Converted_] followed by the date; for a date
    with a year of four digits that is four, two and two digits with
    dashes between them.  An empty field on 2024-03-07 gives
    [Converted_2024-03-07], the field ["  MyClips "] gives [MyClips]. *)
Theorem resolve_trims_or_dates (user_input : string) (today : datetime) :
  (exists l t r,
     user_input = (l ++ t ++ r)%string
     /\ Str.all_space l = true /\ Str.all_space r = true
     /\ Str.trimmed t = true
     /\ (t <> EmptyString -> resolve user_input today = t)
     /\ (t = EmptyString ->
         resolve user_input today
         = ("Converted_" ++ strftime_Ymd today)%string))
  /\ (valid_date today = true ->
      exists Y M D,
        strftime_Ymd today = (Y ++ "-" ++ M ++ "-" ++ D)%string
        /\ Str.digits 4 Y = true /\ Str.digits 2 M = true
        /\ Str.digits 2 D = true
        /\ Str.to_nat Y = year today /\ Str.to_nat M = month today
        /\ Str.to_nat D = day today)
  /\ resolve "" (mkDate 2024 3 7) = "Converted_2024-03-07"
  /\ resolve "  MyClips " today = "MyClips".
Proof.
  split; [|split; [|split; reflexivity]].
  - destruct (strip_split user_input) as (l & r & Hs & Hl & Hr & Ht).
    exists l, (Str.strip user_input), r.
    repeat (split; [assumption|]). unfold resolve. split.
    + intros Hne. destruct (Str.strip user_input); [congruence|reflexivity].
    + now intros ->.
  - intros Hd.
    destruct (strftime_Ymd_shape today Hd) as (HY & HM & HD & VY & VM & VD).
    exists (Str.four_digits (year today)), (Str.two_digits (month today)),
           (Str.two_digits (day today)).
    repeat split; assumption.
Qed.

(** ** Two jobs with one output path *)

Lemma disk_after_app (t u : list event) (d : disk) :
  disk_after (t ++ u) d = disk_after u (disk_after t d).
Proof.
  revert d. induction t as [|e t IH]; intros d; cbn; [reflexivity|].
  destruct e; apply IH.
Qed.

(** A run of ffmpeg that exits with code 0 leaves the conversion of its
    input at its output path, whatever was there: [-y] is the last
    argument of every command line. *)
Lemma ffmpeg_overwrites (w : world) (o file : string) (d : disk) :
  ffmpeg_effect (ffmpeg_argv w o file) (Exited 0) d (output_file o file)
  = Some file.
Proof. cbn. unfold write. now rewrite String.eqb_refl. Qed.

(** The events of the job at offset [j] of the loop, when its process
    exits with code 0: the process, the progress value and the event
    pump, after the processes of the [j] files before it. *)
Lemma convert_loop_job w o tot files :
  forall j i s,
    j < calls (snd (convert_loop w o tot i files s)) - calls s ->
    run_process w (calls s + j) (ffmpeg_argv w o (nth j files EmptyString))
    = Exited 0 ->
    exists tb ta,
      trace (snd (convert_loop w o tot i files s))
      = trace s ++ tb
        ++ [Run (ffmpeg_argv w o (nth j files EmptyString)) (Exited 0);
            SetValue (bar_value (i + j) tot); ProcessEvents] ++ ta
      /\ invocations tb = map (ffmpeg_argv w o) (firstn j files).
Proof.
  induction files as [|f rest IH]; intros j i s Hj Hrun.
  - cbn in Hj. lia.
  - cbn [convert_loop] in Hj |- *.
    pose proof (convert_one_turn w o tot i f s) as T.
    destruct (convert_one w o tot i f s) as [fl s1]. cbn [fst snd] in T.
    destruct j as [|j].
    + rewrite Nat.add_0_r in Hrun |- *. cbn [nth] in Hrun |- *.
      inversion T; subst; clear T; try congruence.
      match goal with |- context [convert_loop w o tot (S i) rest ?s1] =>
        destruct (convert_loop_spec w o tot rest (S i) s1) as (t & Ht & _) end.
      cbn zeta in Ht. rewrite Ht. cbn [trace].
      exists [], t. rewrite <- app_assoc. split; reflexivity.
    + cbn [nth] in Hrun |- *.
      inversion T; subst; clear T; cbn [fst snd calls] in Hj; try lia.
      * match goal with |- context [convert_loop w o tot (S i) rest ?s1] =>
          destruct (IH j (S i) s1) as (tb & ta & Ht & Hinv) end.
        -- cbn [calls]. lia.
        -- cbn [calls]. rewrite <- Hrun. f_equal. lia.
        -- rewrite Ht. cbn [trace].
           exists ([Run (ffmpeg_argv w o f) (Exited 0);
                    SetValue (bar_value i tot); ProcessEvents] ++ tb), ta.
           rewrite <- !app_assoc. replace (S i + j) with (i + S j) by lia.
           split; [reflexivity|]. cbn. now rewrite Hinv.
      * match goal with |- context [convert_loop w o tot (S i) rest ?s1] =>
          destruct (IH j (S i) s1) as (tb & ta & Ht & Hinv) end.
        -- cbn [calls]. lia.
        -- cbn [calls]. rewrite <- Hrun. f_equal. lia.
        -- rewrite Ht. cbn [trace].
           exists ([Run (ffmpeg_argv w o f) (Exited code);
                    Dialog (ConversionError f code)] ++ tb), ta.
           rewrite <- !app_assoc. replace (S i + j) with (i + S j) by lia.
           split; [reflexivity|]. cbn. now rewrite Hinv.
Qed.

Lemma nth_error_in_firstn {A} (l : list A) (n m : nat) (x : A) :
  nth_error l n = Some x -> n < m -> In x (firstn m l).
Proof.
  intros Hx Hn. apply (nth_error_In _ n).
  rewrite nth_error_firstn.
  apply Nat.ltb_lt in Hn. now rewrite Hn.
Qed.

(** C9: when two different files of one batch have the same stem, their
    jobs get the same output path, each with [-y] as last argument; once
    the later job has run and exited with code 0, with no message box in
    between, the file at that path is the conversion of the later file,
    whatever the earlier job had left there. *)
Theorem same_stem_later_job_overwrites
        (w : world) (s : state) (i1 i2 : nat) (f1 f2 : string) :
  1 <= i1 -> i1 < i2 ->
  i2 <= calls (snd (convert_files w s)) - calls s ->
  nth_error (items s) (i1 - 1) = Some f1 ->
  nth_error (items s) (i2 - 1) = Some f2 ->
  f1 <> f2 ->
  base_name f1 = base_name f2 ->
  job_outcome w s i2 = Exited 0 ->
  output_file (resolve (output_input s) (now w)) f1
  = output_file (resolve (output_input s) (now w)) f2
  /\ last (ffmpeg_argv w (resolve (output_input s) (now w)) f1) EmptyString = "-y"
  /\ last (ffmpeg_argv w (resolve (output_input s) (now w)) f2) EmptyString = "-y"
  /\ exists tb ta v,
      trace (snd (convert_files w s))
      = trace s ++ tb
        ++ [Run (ffmpeg_argv w (resolve (output_input s) (now w)) f2) (Exited 0);
            SetValue v; ProcessEvents] ++ ta
      /\ In (ffmpeg_argv w (resolve (output_input s) (now w)) f1)
            (invocations tb)
      /\ forall d,
          disk_after
            (tb ++ [Run (ffmpeg_argv w (resolve (output_input s) (now w)) f2)
                        (Exited 0)]) d
            (output_file (resolve (output_input s) (now w)) f1)
          = Some f2
          /\ Some f2 <> Some f1.
Proof.
  intros H1 H12 Hran Hf1 Hf2 Hne Hstem Hrun.
  set (o := resolve (output_input s) (now w)) in *.
  assert (Hout : output_file o f1 = output_file o f2)
    by (unfold output_file; now rewrite Hstem).
  split; [exact Hout|]. split; [reflexivity|]. split; [reflexivity|].
  assert (Hitems : items s <> []).
  { intros E. rewrite E in Hf1. now destruct (i1 - 1). }
  destruct (folder_ready w s) eqn:Hf.
  2:{ rewrite (convert_files_no_folder w s Hitems Hf) in Hran.
      cbn in Hran. lia. }
  rewrite (convert_files_loop w s Hitems Hf) in Hran |- *. fold o in Hran |- *.
  destruct (prepared_trace w s) as (t0 & Hp & Ht0 & _ & _ & Hpc).
  destruct (convert_loop_job w o (List.length (items s)) (items s)
              (i2 - 1) 1 (prepared w s)) as (tb & ta & Ht & Hinv).
  - destruct (convert_loop w o _ 1 (items s) (prepared w s)) as [[] s3];
      cbn [fst snd calls clear log set_visible] in Hran |- *; lia.
  - unfold job_outcome in Hrun. fold o in Hrun. now rewrite Hpc.
  - rewrite (nth_error_nth _ _ _ Hf2) in Ht.
    assert (Hin : In (ffmpeg_argv w o f1)
                     (invocations ((t0 ++ [SetValue 0%Z]) ++ tb))).
    { read_trace. rewrite Hinv.
      replace (invocations t0) with (@nil (list string))
        by (destruct Ht0 as [-> | ->]; reflexivity).
      rewrite app_nil_r. cbn [app].
      apply in_map. apply (nth_error_in_firstn _ (i1 - 1)); [assumption|lia]. }
    assert (Hdisk : forall d,
               disk_after (((t0 ++ [SetValue 0%Z]) ++ tb)
                           ++ [Run (ffmpeg_argv w o f2) (Exited 0)]) d
                          (output_file o f1) = Some f2
               /\ Some f2 <> Some f1).
    { intros d. rewrite disk_after_app. cbn [disk_after]. rewrite Hout.
      split; [apply ffmpeg_overwrites|congruence]. }
    destruct (convert_loop w o _ 1 (items s) (prepared w s)) as [fl s3].
    cbn [fst snd] in Ht. rewrite Hp in Ht.
    destruct fl; cbn [fst snd trace clear log set_visible].
    + exists ((t0 ++ [SetValue 0%Z]) ++ tb),
             (ta ++ [Dialog (Done (List.length (items s)) o)]),
             (bar_value (1 + (i2 - 1)) (List.length (items s))).
      split; [rewrite Ht, <- !app_assoc; reflexivity|]. split; assumption.
    + exists ((t0 ++ [SetValue 0%Z]) ++ tb),
             (ta ++ [Dialog (Done (List.length (items s)) o)]),
             (bar_value (1 + (i2 - 1)) (List.length (items s))).
      split; [rewrite Ht, <- !app_assoc; reflexivity|]. split; assumption.
    + exists ((t0 ++ [SetValue 0%Z]) ++ tb), ta,
             (bar_value (1 + (i2 - 1)) (List.length (items s))).
      split; [rewrite Ht, <- !app_assoc; reflexivity|]. split; assumption.
    + exists ((t0 ++ [SetValue 0%Z]) ++ tb), ta,
             (bar_value (1 + (i2 - 1)) (List.length (items s))).
      split; [rewrite Ht, <- !app_assoc; reflexivity|]. split; assumption.
Qed.

(** ** Dropping files and folders *)

(** C1, as the claim states it, fails: [dropEvent] adds the path of a
    file that the list already holds, so the list changes and holds the
    path twice. *)
Lemma dropping_a_listed_file_adds_it_again :
  In "/videos/a.mp4" ["/videos/a.mp4"]
  /\ DropArea.dropEvent Sample.videos ["/videos/a.mp4"] ["/videos/a.mp4"]
     = (["/videos/a.mp4"; "/videos/a.mp4"], true)
  /\ fst (DropArea.dropEvent Sample.videos ["/videos/a.mp4"] ["/videos/a.mp4"])
     <> ["/videos/a.mp4"]
  /\ ~ NoDup (fst (DropArea.dropEvent Sample.videos ["/videos/a.mp4"]
                                      ["/videos/a.mp4"])).
Proof.
  assert (E : DropArea.dropEvent Sample.videos ["/videos/a.mp4"] ["/videos/a.mp4"]
              = (["/videos/a.mp4"; "/videos/a.mp4"], true))
    by (vm_compute; reflexivity).
  rewrite E. cbn [fst]. repeat split.
  - now left.
  - discriminate.
  - intros H. inversion H as [|x l Hn _]. apply Hn. now left.
Qed.

(** C1, amended: dropping the path of a file whose extension is [.mp4]
    in any case appends [str(p)] to the list whether or not the list
    holds it: the list grows by one entry, the path occurs once more
    than before, and dropping it twice appends it twice. *)
Theorem dropping_a_file_appends_it
        (fs : PathLib.filesystem) (items : list string) (path : string) :
  PathLib.is_file fs (PathLib.parse path) = true ->
  Str.lower (PathLib.suffix (PathLib.parse path)) = ".mp4" ->
  DropArea.dropEvent fs [path] items
  = (items ++ [PathLib.to_str (PathLib.parse path)], true)
  /\ List.length (fst (DropArea.dropEvent fs [path] items))
     = S (List.length items)
  /\ count_occ string_dec (fst (DropArea.dropEvent fs [path] items))
                (PathLib.to_str (PathLib.parse path))
     = S (count_occ string_dec items (PathLib.to_str (PathLib.parse path)))
  /\ fst (DropArea.dropEvent fs [path]
                             (fst (DropArea.dropEvent fs [path] items)))
     = items ++ [PathLib.to_str (PathLib.parse path);
                 PathLib.to_str (PathLib.parse path)].
Proof.
  intros Hfile Hext.
  assert (E : forall l, DropArea.dropEvent fs [path] l
                        = (l ++ [PathLib.to_str (PathLib.parse path)], true)).
  { intros l. unfold DropArea.dropEvent, DropArea.drop_url. cbn [fold_left].
    now rewrite Hfile, Hext. }
  rewrite !E. cbn [fst]. rewrite ?E. cbn [fst].
  split; [reflexivity|]. split; [|split].
  - rewrite length_app. cbn. lia.
  - rewrite count_occ_app. cbn.
    destruct (string_dec _ _); [lia|congruence].
  - now rewrite <- app_assoc.
Qed.

(** C4 at a folder with four videos, [a.mp4], [b.MP4], [old/c.mp4] and
    [old/d.Mp4], and a text file: dropping the folder adds the two whose
    extension is written [.mp4] and leaves out [b.MP4] and [old/d.Mp4],
    which [dropEvent] accepts when they are dropped as files. *)
Theorem folder_drop_misses_upper_case_extensions :
  DropArea.dropEvent Sample.videos ["/videos"] []
  = (["/videos/a.mp4"; "/videos/old/c.mp4"], true)
  /\ DropArea.dropEvent Sample.videos ["/videos/b.MP4"; "/videos/old/d.Mp4"] []
     = (["/videos/b.MP4"; "/videos/old/d.Mp4"], true).
Proof. split; vm_compute; reflexivity. Qed.

(** ** Further properties *)

(** X3: every run starts its processes one per file, in the order of the
    list, each with the command line
    [ffmpeg -i <file> -c:v copy -c:a pcm_s24le <output> -y]; the number
    of processes started is the growth of [calls]. *)
Theorem processes_follow_the_list (w : world) (s : state) :
  exists t,
    trace (snd (convert_files w s)) = trace s ++ t
    /\ invocations t
       = map (fun file =>
                [ffmpeg_path w; "-i"; file; "-c:v"; "copy"; "-c:a"; "pcm_s24le";
                 output_file (resolve (output_input s) (now w)) file; "-y"])
             (firstn (calls (snd (convert_files w s)) - calls s) (items s)).
Proof.
  destruct (items s) as [|f0 r0] eqn:E.
  - rewrite (convert_files_empty w s E). exists [Dialog NoFiles]. cbn.
    now rewrite Nat.sub_diag.
  - assert (Hne : items s <> []) by (rewrite E; discriminate).
    rewrite <- E. clear E f0 r0.
    destruct (folder_ready w s) eqn:Hf.
    + rewrite (convert_files_loop w s Hne Hf).
      destruct (prepared_trace w s) as (t0 & Hp & Ht0 & _ & _ & Hpc).
      destruct (convert_loop_spec w (resolve (output_input s) (now w))
                  (List.length (items s)) (items s) 1 (prepared w s))
        as (t & Ht & _ & _ & _ & _ & _ & Hc & Hinv & _).
      cbn zeta in *.
      assert (H0 : invocations (t0 ++ [SetValue 0%Z]) = [])
        by (destruct Ht0 as [-> | ->]; reflexivity).
      destruct (convert_loop w _ _ 1 (items s) (prepared w s)) as [fl s3].
      cbn [fst snd] in *. rewrite Hp in Ht. rewrite Hpc in Hc.
      destruct fl; cbn [fst snd trace calls clear log set_visible];
        replace (calls s3 - calls s) with (List.length (invocations t)) by lia.
      * exists ((t0 ++ [SetValue 0%Z]) ++ t
                ++ [Dialog (Done (List.length (items s))
                                 (resolve (output_input s) (now w)))]).
        split; [rewrite Ht, <- !app_assoc; reflexivity|].
        rewrite (invocations_app (t0 ++ [SetValue 0%Z])), H0, invocations_app.
        cbn. now rewrite app_nil_r.
      * exists ((t0 ++ [SetValue 0%Z]) ++ t
                ++ [Dialog (Done (List.length (items s))
                                 (resolve (output_input s) (now w)))]).
        split; [rewrite Ht, <- !app_assoc; reflexivity|].
        rewrite (invocations_app (t0 ++ [SetValue 0%Z])), H0, invocations_app.
        cbn. now rewrite app_nil_r.
      * exists ((t0 ++ [SetValue 0%Z]) ++ t).
        split; [rewrite Ht, <- !app_assoc; reflexivity|].
        now rewrite (invocations_app (t0 ++ [SetValue 0%Z])), H0.
      * exists ((t0 ++ [SetValue 0%Z]) ++ t).
        split; [rewrite Ht, <- !app_assoc; reflexivity|].
        now rewrite (invocations_app (t0 ++ [SetValue 0%Z])), H0.
    + rewrite (convert_files_no_folder w s Hne Hf).
      exists [Makedirs (resolve (output_input s) (now w))]. cbn.
      now rewrite Nat.sub_diag.
Qed.

(** A list that passes the check [nondecreasing] is sorted. *)
Lemma nondecreasing_sorted (l : list Z) :
  nondecreasing l = true -> StronglySorted Z.le l.
Proof.
  intros H. apply Sorted_StronglySorted; [exact Z.le_trans|].
  induction l as [|x l IH]; [constructor|].
  destruct l as [|y l]; [repeat constructor|].
  cbn [nondecreasing] in H. apply andb_true_iff in H as [Hxy Hl].
  constructor; [now apply IH|]. constructor. now apply Z.leb_le.
Qed.

(** X2: for a batch of up to 200 files, the values of the bar for the
    positions 1, 2, ..., total, computed in floating point, never
    decrease, stay between 0 and 100 and end with 100. *)
Theorem bar_values_nondecreasing (total : nat) :
  1 <= total <= 200 ->
  StronglySorted Z.le (bar_values total)
  /\ Forall (fun v => (0 <= v <= 100)%Z) (bar_values total)
  /\ bar_value total total = 100%Z.
Proof.
  intros Ht.
  assert (Hall : forallb bar_values_fine (seq 1 200) = true)
    by (vm_compute; reflexivity).
  rewrite forallb_forall in Hall.
  specialize (Hall total ltac:(apply in_seq; lia)).
  unfold bar_values_fine in Hall.
  apply andb_true_iff in Hall as [Hall Hlast].
  apply andb_true_iff in Hall as [Hsorted Hrange].
  split; [now apply nondecreasing_sorted|]. split.
  - apply Forall_forall. intros v Hv.
    rewrite forallb_forall in Hrange. specialize (Hrange v Hv).
    apply andb_true_iff in Hrange as [H0 H100].
    apply Z.leb_le in H0, H100. lia.
  - now apply Z.eqb_eq.
Qed.

(** ** More on strings *)

Section MoreStrFacts.

Local Open Scope string_scope.

Lemma rfind_none_absent (c : ascii) (s : string) :
  Str.rfind c s = None -> Str.contains c s = false.
Proof.
  induction s as [|a s IH]; cbn; [reflexivity|].
  destruct (Str.rfind c s); [discriminate|].
  destruct (Ascii.eqb a c); [discriminate|]. intros _. now apply IH.
Qed.

Lemma slice_from_succ (a : ascii) (s : string) (i : nat) :
  Str.slice_from (S i) (String a s) = Str.slice_from i s.
Proof. reflexivity. Qed.

Lemma slice_from_zero (s : string) : Str.slice_from 0 s = s.
Proof. unfold Str.slice_from. rewrite Nat.sub_0_r. apply substring_whole. Qed.

(** Nothing after the last occurrence of [c] holds a [c]. *)
Lemma contains_after_rfind (c : ascii) (s : string) (i : nat) :
  Str.rfind c s = Some i -> Str.contains c (Str.slice_from (S i) s) = false.
Proof.
  revert i. induction s as [|a s IH]; cbn [Str.rfind]; intros i; [discriminate|].
  rewrite slice_from_succ.
  destruct (Str.rfind c s) as [j|] eqn:E.
  - intros [= <-]. now apply IH.
  - destruct (Ascii.eqb a c); [|discriminate]. intros [= <-].
    rewrite slice_from_zero. now apply rfind_none_absent.
Qed.

Lemma contains_substring_head (c : ascii) (s : string) (k : nat) :
  Str.contains c s = false -> Str.contains c (substring 0 k s) = false.
Proof.
  revert k. induction s as [|a s IH]; intros k H.
  - now destruct k.
  - destruct k as [|k]; [reflexivity|]. cbn in H |- *.
    apply orb_false_iff in H as [Ha Hs]. now rewrite Ha, (IH k Hs).
Qed.

(** A string is its first [i] characters followed by the rest. *)
Lemma substring_split (s : string) (i : nat) :
  i <= length s -> s = substring 0 i s ++ Str.slice_from i s.
Proof.
  revert i. induction s as [|a s IH]; intros i Hi.
  - cbn in Hi. now replace i with 0 by lia.
  - destruct i as [|i].
    + now rewrite slice_from_zero.
    + cbn [substring append]. rewrite slice_from_succ.
      cbn in Hi. now rewrite <- (IH i) by lia.
Qed.

Lemma endswith_iff (x s : string) :
  Str.endswith x s = true <-> exists a, s = a ++ x.
Proof.
  unfold Str.endswith. split.
  - intros H. apply andb_true_iff in H as [Hl He].
    apply Nat.leb_le in Hl. apply String.eqb_eq in He.
    exists (substring 0 (length s - length x) s).
    rewrite <- He at 2. apply substring_split. lia.
  - intros [a ->]. rewrite length_append.
    replace (length a + length x - length x) with (length a) by lia.
    rewrite slice_from_append, String.eqb_refl.
    replace (length x <=? length a + length x)%nat with true; [reflexivity|].
    symmetry. apply Nat.leb_le. lia.
Qed.

Lemma lower_append (a b : string) :
  Str.lower (a ++ b) = Str.lower a ++ Str.lower b.
Proof. induction a as [|x a IH]; cbn; [reflexivity|now rewrite IH]. Qed.

(** The strings of a non-empty list joined by [sep] end with the last. *)
Lemma concat_last (sep : string) (ps : list string) :
  ps <> [] -> exists b, String.concat sep ps = b ++ last ps "".
Proof.
  induction ps as [|p ps IH]; [congruence|]. intros _.
  destruct ps as [|q ps].
  - now exists "".
  - destruct IH as [b Hb]; [discriminate|].
    exists (p ++ sep ++ b). cbn [String.concat last] in *.
    now rewrite Hb, !append_assoc.
Qed.

Lemma append_inv_head (a b c : string) : a ++ b = a ++ c -> b = c.
Proof. induction a as [|x a IH]; cbn; [auto|]. intros [= H]. auto. Qed.

Lemma append_inv_tail (a b c : string) : a ++ c = b ++ c -> a = b.
Proof.
  revert b. induction a as [|x a IH]; intros [|y b] H; cbn in H.
  - reflexivity.
  - apply (f_equal length) in H. cbn in H. rewrite length_append in H. lia.
  - apply (f_equal length) in H. cbn in H. rewrite length_append in H. lia.
  - injection H as -> H. now rewrite (IH b H).
Qed.

End MoreStrFacts.

(** ** Output paths, for every source path *)

Section OutputPaths.

Local Open Scope string_scope.

Lemma basename_no_sep (p : string) :
  Str.contains "/" (OsPath.basename p) = false.
Proof.
  unfold OsPath.basename. destruct (Str.rfind "/" p) as [i|] eqn:E.
  - now apply contains_after_rfind.
  - now apply rfind_none_absent.
Qed.

Lemma splitext_no_sep (n : string) :
  Str.contains "/" n = false -> Str.contains "/" (fst (OsPath.splitext n)) = false.
Proof.
  intros H. unfold OsPath.splitext.
  destruct (Str.rfind "." n) as [d|]; [|assumption].
  match goal with |- context [if ?c then _ else _] => destruct c end;
    [|assumption].
  now apply contains_substring_head.
Qed.

Lemma base_name_no_sep (file : string) :
  Str.contains "/" (base_name file) = false.
Proof. apply splitext_no_sep, basename_no_sep. Qed.

Lemma no_sep_no_prefix (n : string) :
  Str.contains "/" n = false -> String.prefix "/" n = false.
Proof.
  destruct n as [|x n]; [reflexivity|]. cbn [Str.contains]. intros H.
  apply orb_false_iff in H as [Hx _]. cbn [String.prefix].
  destruct (ascii_dec "/" x) as [<-|?]; [|reflexivity].
  rewrite Ascii.eqb_refl in Hx. discriminate.
Qed.

Lemma join_no_sep (a n : string) :
  Str.contains "/" n = false ->
  OsPath.join a n
  = a ++ (if Str.is_empty a || Str.endswith "/" a then "" else "/") ++ n.
Proof.
  intros H. unfold OsPath.join. rewrite (no_sep_no_prefix n H).
  now destruct (Str.is_empty a || Str.endswith "/" a).
Qed.

Lemma substring_skip_plus (a b : string) (k m : nat) :
  substring (length a + k) m (a ++ b) = substring k m b.
Proof. induction a as [|x a IH]; cbn; [reflexivity|exact IH]. Qed.

(** Whether [a ++ b] ends with [x] is decided by [b] when [b] is long
    enough. *)
Lemma endswith_append (x a b : string) :
  length x <= length b -> Str.endswith x (a ++ b) = Str.endswith x b.
Proof.
  intros H. unfold Str.endswith, Str.slice_from. rewrite length_append.
  replace (length a + length b - length x)
    with (length a + (length b - length x)) by lia.
  rewrite substring_skip_plus.
  replace (length a + length b - (length a + (length b - length x)))
    with (length b - (length b - length x)) by lia.
  f_equal. destruct (Nat.leb_spec (length x) (length b));
    destruct (Nat.leb_spec (length x) (length a + length b)); auto; lia.
Qed.

End OutputPaths.

(** ** The stem of every source path *)

Section Stems.

Local Open Scope string_scope.

Lemma rfind_lt (c : ascii) (s : string) (i : nat) :
  Str.rfind c s = Some i -> i < length s.
Proof.
  revert i. induction s as [|a s IH]; cbn [Str.rfind length]; intros i;
    [discriminate|].
  destruct (Str.rfind c s) as [j|].
  - intros [= <-]. specialize (IH j eq_refl). lia.
  - destruct (Ascii.eqb a c); [|discriminate]. intros [= <-]. lia.
Qed.

(** The character at the index that [rfind] returns is the one looked
    for. *)
Lemma rfind_char (c : ascii) (s : string) (i : nat) :
  Str.rfind c s = Some i ->
  Str.slice_from i s = String c (Str.slice_from (S i) s).
Proof.
  revert i. induction s as [|a s IH]; cbn [Str.rfind]; intros i;
    [discriminate|].
  destruct (Str.rfind c s) as [j|].
  - intros [= <-]. rewrite !slice_from_succ. now apply IH.
  - destruct (Ascii.eqb_spec a c) as [->|]; [|discriminate]. intros [= <-].
    now rewrite slice_from_succ, !slice_from_zero.
Qed.

Lemma rfind_prefix (c : ascii) (s : string) (i : nat) :
  Str.rfind c s = Some i ->
  substring 0 (S i) s = substring 0 i s ++ String c "".
Proof.
  revert i. induction s as [|a s IH]; cbn [Str.rfind]; intros i;
    [discriminate|].
  destruct (Str.rfind c s) as [j|].
  - intros [= <-]. cbn [substring append]. f_equal. now apply IH.
  - destruct (Ascii.eqb_spec a c) as [->|]; [|discriminate]. intros [= <-].
    cbn. now destruct s.
Qed.

(** A path is a directory part, empty or ending with the separator,
    followed by its base name. *)
Lemma basename_split (p : string) :
  exists dir,
    p = dir ++ OsPath.basename p
    /\ (dir = "" \/ Str.endswith "/" dir = true).
Proof.
  unfold OsPath.basename. destruct (Str.rfind "/" p) as [i|] eqn:E.
  - exists (substring 0 (S i) p). split.
    + apply substring_split. apply rfind_lt in E. lia.
    + right. apply endswith_iff. exists (substring 0 i p).
      now apply rfind_prefix.
  - exists "". split; [reflexivity|now left].
Qed.

(** [splitext] on a file name: the name is cut before its last dot when
    a character other than a dot comes before that dot, and is left
    whole otherwise. *)
Lemma splitext_split (n : string) :
  Str.contains "/" n = false ->
  n = fst (OsPath.splitext n) ++ snd (OsPath.splitext n)
  /\ (snd (OsPath.splitext n) = ""
      /\ (forall s e, n = s ++ "." ++ e -> Str.contains "." e = false ->
                      Str.all_char "." s = true)
      \/ exists e,
          snd (OsPath.splitext n) = "." ++ e
          /\ Str.contains "." e = false
          /\ Str.all_char "." (fst (OsPath.splitext n)) = false).
Proof.
  intros Hn. unfold OsPath.splitext. rewrite (rfind_absent "/" n Hn).
  destruct (Str.rfind "." n) as [d|] eqn:E.
  - unfold Str.slice. rewrite Nat.sub_0_r. cbn [Nat.leb andb].
    destruct (Str.all_char "." (substring 0 d n)) eqn:Hd; cbn [negb fst snd].
    + split; [now rewrite append_nil_r|]. left. split; [reflexivity|].
      intros s e -> He. change ("." ++ e) with (String "." e) in E, Hd.
      rewrite (rfind_last "." s e He) in E.
      injection E as <-. now rewrite substring_head in Hd.
    + unfold Str.slice_to. split.
      * apply substring_split. apply rfind_lt in E. lia.
      * right. exists (Str.slice_from (S d) n). split; [|split].
        -- now apply rfind_char.
        -- now apply contains_after_rfind.
        -- exact Hd.
  - cbn [fst snd]. split; [now rewrite append_nil_r|]. left.
    split; [reflexivity|].
    intros s e -> He. change ("." ++ e) with (String "." e) in E.
    rewrite (rfind_last "." s e He) in E. discriminate.
Qed.

End Stems.

(** C8: every source path is a directory part followed by a file name,
    the file name is a stem followed by an extension (the last dot and
    what follows it, when a character other than a dot comes before that
    dot; nothing otherwise), and the output path is the output folder, a
    ["/"] unless the folder is empty or ends with one, the stem and
    [.mov]; [clip.MP4] and [clip.mp4] both give the base name
    [clip.mov]. *)
Theorem output_path_is_folder_stem_mov (output_dir file : string) :
  (exists dir name stem ext,
      file = (dir ++ name)%string
      /\ (dir = EmptyString \/ Str.endswith "/" dir = true)
      /\ Str.contains "/" name = false
      /\ name = (stem ++ ext)%string
      /\ (ext = EmptyString
          /\ (forall s e, name = (s ++ "." ++ e)%string ->
                          Str.contains "." e = false ->
                          Str.all_char "." s = true)
          \/ exists e,
              ext = ("." ++ e)%string
              /\ Str.contains "." e = false
              /\ Str.all_char "." stem = false)
      /\ base_name file = stem
      /\ output_file output_dir file
         = (output_dir
            ++ (if Str.is_empty output_dir || Str.endswith "/" output_dir
                then "" else "/")
            ++ stem ++ ".mov")%string
      /\ OsPath.basename (output_file output_dir file)
         = (stem ++ ".mov")%string)
  /\ output_file output_dir "clip.MP4" = output_file output_dir "clip.mp4"
  /\ OsPath.basename (output_file output_dir "clip.MP4") = "clip.mov"%string
  /\ OsPath.basename (output_file output_dir "/videos/..mp4")
     = "..mp4.mov"%string.
Proof.
  assert (Hout : forall f,
             output_file output_dir f
             = (output_dir
                ++ (if Str.is_empty output_dir || Str.endswith "/" output_dir
                    then "" else "/")
                ++ base_name f ++ ".mov")%string
             /\ OsPath.basename (output_file output_dir f)
                = (base_name f ++ ".mov")%string).
  { intros f.
    assert (Hm : Str.contains "/" (base_name f ++ ".mov")%string = false)
      by (rewrite contains_append, base_name_no_sep; reflexivity).
    unfold output_file. split; [now apply join_no_sep|now apply basename_join]. }
  split; [|split; [|split]].
  - destruct (basename_split file) as (dir & Hfile & Hdir).
    pose proof (basename_no_sep file) as Hn.
    destruct (splitext_split (OsPath.basename file) Hn) as [Hname Hext].
    exists dir, (OsPath.basename file), (base_name file),
           (snd (OsPath.splitext (OsPath.basename file))).
    destruct (Hout file) as [Ho Hb].
    repeat split; try assumption; reflexivity.
  - destruct (Hout "clip.MP4"%string) as [-> _].
    destruct (Hout "clip.mp4"%string) as [-> _]. reflexivity.
  - destruct (Hout "clip.MP4"%string) as [_ ->]. reflexivity.
  - destruct (Hout "/videos/..mp4"%string) as [_ ->]. reflexivity.
Qed.

(** X4: for every source path and every output folder, the name that
    [convert_files] gives the output holds no separator, the output path
    is the folder, a ["/"] unless the folder is empty or ends with one,
    and that name followed by [.mov]: the output never lands outside the
    folder, and it always ends with [.mov]. *)
Theorem output_stays_in_folder (output_dir file : string) :
  Str.contains "/" (base_name file) = false
  /\ output_file output_dir file
     = (output_dir
        ++ (if Str.is_empty output_dir || Str.endswith "/" output_dir
            then "" else "/")
        ++ base_name file ++ ".mov")%string
  /\ OsPath.basename (output_file output_dir file)
     = (base_name file ++ ".mov")%string
  /\ Str.endswith ".mov" (output_file output_dir file) = true.
Proof.
  pose proof (base_name_no_sep file) as Hb.
  assert (Hn : Str.contains "/" (base_name file ++ ".mov")%string = false)
    by (rewrite contains_append, Hb; reflexivity).
  split; [exact Hb|]. unfold output_file. repeat split.
  - now apply join_no_sep.
  - now apply basename_join.
  - rewrite (join_no_sep _ _ Hn). apply endswith_iff.
    exists (output_dir
            ++ (if Str.is_empty output_dir || Str.endswith "/" output_dir
                then "" else "/") ++ base_name file)%string.
    now rewrite !append_assoc.
Qed.

(** X5: two source paths get the same output path in a folder exactly
    when their stems are equal. *)
Theorem same_output_iff_same_stem (output_dir f1 f2 : string) :
  output_file output_dir f1 = output_file output_dir f2
  <-> base_name f1 = base_name f2.
Proof.
  split.
  - intros H. apply (f_equal OsPath.basename) in H.
    unfold output_file in H.
    rewrite !basename_join in H
      by (rewrite contains_append, base_name_no_sep; reflexivity).
    now apply append_inv_tail in H.
  - intros H. unfold output_file. now rewrite H.
Qed.

(** X6: [get_ffmpeg_path] (outside Windows) is the bundle's folder when
    the program is frozen and the working directory otherwise, a ["/"]
    unless that is empty or ends with one, and [ffmpeg/bin/ffmpeg]; so
    the command always holds a separator and its base name is [ffmpeg]. *)
Theorem ffmpeg_path_is_under_base (frozen : bool) (meipass getcwd : string) :
  get_ffmpeg_path frozen meipass getcwd
  = ((if frozen then meipass else getcwd)
     ++ (if Str.is_empty (if frozen then meipass else getcwd)
            || Str.endswith "/" (if frozen then meipass else getcwd)
         then "" else "/")
     ++ "ffmpeg/bin/ffmpeg")%string
  /\ Str.contains "/" (get_ffmpeg_path frozen meipass getcwd) = true
  /\ OsPath.basename (get_ffmpeg_path frozen meipass getcwd) = "ffmpeg".
Proof.
  unfold get_ffmpeg_path.
  set (base := if frozen then meipass else getcwd).
  set (sep := if Str.is_empty base || Str.endswith "/" base
              then EmptyString else "/").
  assert (E1 : OsPath.join base "ffmpeg" = (base ++ sep ++ "ffmpeg")%string)
    by (now apply join_no_sep).
  assert (Hend : forall a b, (6 <= length b)%nat ->
             Str.is_empty (a ++ b)%string || Str.endswith "/" (a ++ b)%string
             = Str.endswith "/" b).
  { intros a b Hb. rewrite endswith_append by (cbn; lia).
    destruct a; [destruct b; [cbn in Hb; lia|]|]; reflexivity. }
  assert (E2 : OsPath.join (OsPath.join base "ffmpeg") "bin"
               = (base ++ sep ++ "ffmpeg/bin")%string).
  { rewrite (join_no_sep _ "bin") by reflexivity. rewrite E1.
    rewrite <- (append_assoc base sep "ffmpeg").
    rewrite (Hend (base ++ sep)%string "ffmpeg") by (cbn; lia).
    cbn [Str.endswith]. now rewrite !append_assoc. }
  assert (E3 : OsPath.join (OsPath.join (OsPath.join base "ffmpeg") "bin")
                           "ffmpeg"
               = (base ++ sep ++ "ffmpeg/bin/ffmpeg")%string).
  { rewrite (join_no_sep _ "ffmpeg") by reflexivity. rewrite E2.
    rewrite <- (append_assoc base sep "ffmpeg/bin").
    rewrite (Hend (base ++ sep)%string "ffmpeg/bin") by (cbn; lia).
    cbn [Str.endswith]. now rewrite !append_assoc. }
  rewrite E3. split; [reflexivity|]. split.
  - rewrite !contains_append. cbn. now rewrite !orb_true_r.
  - change (base ++ sep ++ "ffmpeg/bin/ffmpeg")%string
      with (base ++ sep ++ "ffmpeg/bin" ++ "/" ++ "ffmpeg")%string.
    rewrite <- (append_assoc sep), <- (append_assoc base).
    now apply basename_after_sep.
Qed.

(** ** The folder's name, once resolved *)

Section ResolveFacts.

Local Open Scope string_scope.

Lemma rstrip_trimmed (t : string) :
  Str.ends_with_space t = false -> Str.rstrip t = t.
Proof.
  induction t as [|c t IH]; [reflexivity|]. cbn [Str.rstrip Str.ends_with_space].
  destruct t as [|d t].
  - intros ->. reflexivity.
  - intros H. rewrite (IH H). cbn [Str.is_empty]. now rewrite andb_false_r.
Qed.

Lemma strip_trimmed (t : string) : Str.trimmed t = true -> Str.strip t = t.
Proof.
  unfold Str.trimmed, Str.strip. intros H.
  apply andb_true_iff in H as [Hs He].
  apply negb_true_iff in Hs, He.
  assert (Hl : Str.lstrip t = t).
  { destruct t as [|c t]; [reflexivity|]. cbn in Hs |- *. now rewrite Hs. }
  rewrite Hl. now apply rstrip_trimmed.
Qed.

Lemma digit_not_space (n : nat) : Str.isspace (Str.digit n) = false.
Proof.
  unfold Str.digit. pose proof (Nat.mod_upper_bound n 10 ltac:(lia)) as H.
  remember (n mod 10) as m eqn:E. clear E.
  do 10 (destruct m as [|m]; [reflexivity|]). lia.
Qed.

Lemma dated_name_trimmed (d : datetime) :
  Str.trimmed ("Converted_" ++ strftime_Ymd d) = true.
Proof.
  unfold Str.trimmed. apply andb_true_iff. split; [reflexivity|].
  unfold strftime_Ymd, Str.four_digits, Str.two_digits.
  cbn [append Str.ends_with_space]. now rewrite digit_not_space.
Qed.

End ResolveFacts.

(** X7: whatever is typed in the folder field, the folder's name is
    never empty and has no white space at either end, and resolving it
    again (on any day) gives it back. *)
Theorem resolved_name_is_usable (user_input : string) (today : datetime) :
  resolve user_input today <> EmptyString
  /\ Str.trimmed (resolve user_input today) = true
  /\ forall later, resolve (resolve user_input today) later
                   = resolve user_input today.
Proof.
  assert (H : resolve user_input today <> EmptyString
              /\ Str.trimmed (resolve user_input today) = true).
  { unfold resolve. destruct (Str.strip user_input) as [|c t] eqn:E; cbn zeta.
    - cbn [Str.is_empty]. split; [discriminate|apply dated_name_trimmed].
    - cbn [Str.is_empty]. split; [discriminate|].
      destruct (strip_split user_input) as (_ & _ & _ & _ & _ & Ht).
      now rewrite E in Ht. }
  destruct H as [Hne Ht]. repeat split; try assumption.
  intros later. unfold resolve at 1. rewrite (strip_trimmed _ Ht).
  destruct (resolve user_input today); [congruence|reflexivity].
Qed.

(** ** More on the list of files *)

Section DropFacts.

Import PathLib.

Lemma to_str_ends_with_name (p : Path) :
  parts p <> [] -> exists b, to_str p = (b ++ name p)%string.
Proof.
  intros Hne. destruct (concat_last "/" (parts p) Hne) as [b Hb].
  exists (root p ++ b)%string. unfold to_str, name.
  rewrite append_assoc, <- Hb.
  destruct (root p); destruct (parts p); congruence.
Qed.

Lemma ends_with_mp4_intro (a x : string) :
  Str.lower x = ".mp4" -> ends_with_mp4 (a ++ x)%string = true.
Proof.
  intros H. unfold ends_with_mp4. apply endswith_iff.
  exists (Str.lower a). now rewrite lower_append, H.
Qed.

(** The path of a file that [dropEvent] accepts ends with [.mp4] in
    some case. *)
Lemma accepted_file_ends_with_mp4 (p : Path) :
  String.eqb (Str.lower (suffix p)) ".mp4" = true ->
  ends_with_mp4 (to_str p) = true.
Proof.
  intros H. apply String.eqb_eq in H.
  assert (Hs : exists a, name p = (a ++ suffix p)%string).
  { unfold suffix in *. destruct (Str.rfind "." (name p)) as [i|];
      [|discriminate].
    destruct ((0 <? i) && (i <? String.length (name p) - 1)) eqn:C;
      [|discriminate].
    apply andb_true_iff in C as [_ C]. apply Nat.ltb_lt in C.
    exists (substring 0 i (name p)). apply substring_split. lia. }
  destruct Hs as [a Ha].
  assert (Hne : parts p <> []).
  { intros E. unfold name in Ha. rewrite E in Ha. cbn in Ha.
    destruct a; [|discriminate]. cbn in Ha. rewrite <- Ha in H. discriminate. }
  destruct (to_str_ends_with_name p Hne) as [b Hb].
  rewrite Hb, Ha, <- append_assoc. now apply ends_with_mp4_intro.
Qed.

(** So does every path that globbing builds from a name that ends with
    [.mp4]. *)
Lemma globbed_entry_ends_with_mp4 (d : Path) (nm : string) :
  matches_star ".mp4" nm = true -> ends_with_mp4 (to_str (child d nm)) = true.
Proof.
  unfold matches_star. intros H. apply endswith_iff in H as [a ->].
  destruct (to_str_ends_with_name (child d (a ++ ".mp4")%string)) as [b Hb].
  { cbn. intros E. now apply app_eq_nil in E as [_ E]. }
  rewrite Hb. unfold name, child. cbn [parts]. rewrite last_last.
  rewrite <- append_assoc. now apply ends_with_mp4_intro.
Qed.

Lemma rglob_star_entries (fs : filesystem) (p q : Path) (ext : string) :
  In q (rglob_star fs p ext) ->
  exists d nm, q = child d nm /\ matches_star ext nm = true.
Proof.
  unfold rglob_star. destruct (stat fs p) as [n|]; [|intros []].
  intros H. apply in_flat_map in H as ([d es] & _ & H).
  apply in_map_iff in H as (nm & <- & H). apply filter_In in H as [_ H].
  now exists d, nm.
Qed.

(** One url adds entries at the end of the list, each ending with
    [.mp4] in some case. *)
Lemma drop_url_adds (fs : filesystem) (items : list string) (path : string) :
  exists added,
    DropArea.drop_url fs items path = items ++ added
    /\ Forall (fun x => ends_with_mp4 x = true) added.
Proof.
  unfold DropArea.drop_url.
  destruct (is_file fs (parse path)
            && String.eqb (Str.lower (suffix (parse path))) ".mp4") eqn:C.
  - apply andb_true_iff in C as [_ C].
    exists [to_str (parse path)]. split; [reflexivity|].
    constructor; [now apply accepted_file_ends_with_mp4|constructor].
  - destruct (is_dir fs (parse path)).
    + exists (map to_str (rglob_star fs (parse path) ".mp4")).
      split; [reflexivity|]. apply Forall_forall. intros x Hx.
      apply in_map_iff in Hx as (q & <- & Hq).
      apply rglob_star_entries in Hq as (d & nm & -> & Hm).
      now apply globbed_entry_ends_with_mp4.
    + exists []. rewrite app_nil_r. split; [reflexivity|constructor].
Qed.

Lemma drop_urls_add (fs : filesystem) (urls : list string) :
  forall items,
  exists added,
    fold_left (DropArea.drop_url fs) urls items = items ++ added
    /\ Forall (fun x => ends_with_mp4 x = true) added.
Proof.
  induction urls as [|u urls IH]; intros items; cbn [fold_left].
  - exists []. rewrite app_nil_r. split; [reflexivity|constructor].
  - destruct (drop_url_adds fs items u) as (a1 & E1 & F1).
    destruct (IH (DropArea.drop_url fs items u)) as (a2 & E2 & F2).
    exists (a1 ++ a2). rewrite E2, E1, <- app_assoc.
    split; [reflexivity|]. apply Forall_app. now split.
Qed.

Lemma dropEvent_fold (fs : filesystem) (urls items : list string) :
  fst (DropArea.dropEvent fs urls items)
  = fold_left (DropArea.drop_url fs) urls items.
Proof. now destruct urls. Qed.

End DropFacts.

(** X8: a drop never removes or moves an entry of the list: the entries
    it adds, each one ending with [.mp4] in some case, come after those
    that were there; and the event is accepted exactly when
    [dragEnterEvent] and [dragMoveEvent] accept it, that is when it
    brings urls, even if nothing is added. *)
Theorem drop_adds_mp4_paths_at_the_end
        (fs : PathLib.filesystem) (urls items : list string) :
  (exists added,
     fst (DropArea.dropEvent fs urls items) = items ++ added
     /\ Forall (fun x => ends_with_mp4 x = true) added)
  /\ snd (DropArea.dropEvent fs urls items) = dragEnterEvent urls
  /\ dragMoveEvent urls = dragEnterEvent urls
  /\ (urls = [] -> DropArea.dropEvent fs urls items = (items, false)).
Proof.
  split; [|split; [|split]].
  - rewrite dropEvent_fold. apply drop_urls_add.
  - now destruct urls.
  - reflexivity.
  - now intros ->.
Qed.

(** X9: dropping two lists of urls one after the other leaves the list
    that dropping them at once leaves. *)
Theorem drops_compose (fs : PathLib.filesystem) (u1 u2 items : list string) :
  fst (DropArea.dropEvent fs (u1 ++ u2) items)
  = fst (DropArea.dropEvent fs u2 (fst (DropArea.dropEvent fs u1 items)))
  /\ snd (DropArea.dropEvent fs (u1 ++ u2) items)
     = snd (DropArea.dropEvent fs u1 items)
       || snd (DropArea.dropEvent fs u2 items).
Proof.
  split.
  - rewrite !dropEvent_fold. apply fold_left_app.
  - destruct u1, u2; reflexivity.
Qed.

(** X10: a double click on row [row] takes that entry out and moves the
    entries after it up by one; a row past the end changes nothing. *)
Theorem remove_item_shifts_rows (row : nat) (items : list string) :
  DropArea.remove_item row items = firstn row items ++ skipn (S row) items
  /\ (forall j,
        nth_error (DropArea.remove_item row items) j
        = if j <? row then nth_error items j else nth_error items (S j))
  /\ (row < List.length items ->
      S (List.length (DropArea.remove_item row items)) = List.length items)
  /\ (List.length items <= row -> DropArea.remove_item row items = items).
Proof.
  assert (E : forall r l, DropArea.remove_item r l = firstn r l ++ skipn (S r) l).
  { induction r as [|r IH]; intros [|x l]; cbn; try reflexivity.
    now rewrite IH. }
  split; [apply E|]. split; [|split].
  - revert items. induction row as [|row IH]; intros [|x l] j; cbn.
    + now destruct j.
    + reflexivity.
    + destruct (j <=? row); now destruct j.
    + destruct j as [|j]; [reflexivity|]. cbn [nth_error]. rewrite IH.
      reflexivity.
  - intros H. rewrite E, length_app, length_firstn, length_skipn. lia.
  - intros H. rewrite E, firstn_all2 by assumption.
    rewrite skipn_all2 by lia. apply app_nil_r.
Qed.

(** X11: taking out the row that a dropped file was added at gives the
    list back as it was before the drop. *)
Theorem remove_undoes_drop
        (fs : PathLib.filesystem) (items : list string) (path : string) :
  PathLib.is_file fs (PathLib.parse path) = true ->
  Str.lower (PathLib.suffix (PathLib.parse path)) = ".mp4" ->
  DropArea.remove_item (List.length items)
                       (fst (DropArea.dropEvent fs [path] items))
  = items.
Proof.
  intros Hfile Hext.
  assert (E : fst (DropArea.dropEvent fs [path] items)
              = items ++ [PathLib.to_str (PathLib.parse path)]).
  { unfold DropArea.dropEvent, DropArea.drop_url. cbn [fold_left fst].
    now rewrite Hfile, Hext. }
  rewrite E. clear E.
  induction items as [|x l IH]; cbn; [reflexivity|]. now rewrite IH.
Qed.

(** ** What a dropped folder adds *)

Section GlobFacts.

Import PathLib.

Lemma iterate_directories_dir (p : Path) (es : list (string * node)) :
  iterate_directories p (Dir es)
  = (p, es) :: flat_map (fun e => iterate_directories (child p (fst e)) (snd e))
                        es.
Proof.
  cbn [iterate_directories]. f_equal.
  induction es as [|[c x] r IH]; cbn; [reflexivity|now rewrite IH].
Qed.

(** The directories that globbing visits are those that can be reached
    from the start, each with the path that leads to it. *)
Lemma iterate_directories_spec (n : node) :
  forall p d es,
    In (d, es) (iterate_directories p n)
    <-> exists sub, reaches n sub es /\ d = mkPath (root p) (parts p ++ sub).
Proof.
  apply (node_induction
           (fun n => forall p d es,
                In (d, es) (iterate_directories p n)
                <-> exists sub, reaches n sub es
                                /\ d = mkPath (root p) (parts p ++ sub))).
  - intros p d es. cbn. split; [intros []|].
    intros (sub & H & _). inversion H.
  - intros es0 IH p d es. rewrite iterate_directories_dir.
    rewrite Forall_forall in IH. cbn [In]. rewrite in_flat_map. split.
    + intros [H|([c x] & Hin & H)].
      * injection H as <- <-. exists []. split; [constructor|].
        rewrite app_nil_r. now destruct p.
      * apply (IH (c, x) Hin) in H as (sub & Hr & ->). cbn [fst snd] in *.
        exists (c :: sub). split; [now apply (reaches_down es0 c x)|].
        cbn. now rewrite <- app_assoc.
    + intros (sub & Hr & ->). inversion Hr as [|? c x sub' ? Hin Hr']; subst.
      * left. rewrite app_nil_r. now destruct p.
      * right. exists (c, x). split; [assumption|].
        apply (IH (c, x) Hin). exists sub'. split; [assumption|].
        cbn. now rewrite <- app_assoc.
Qed.

End GlobFacts.

(** X12: dropping a folder adds, after the entries that were there, the
    paths of the entries of the folder and of the folders below it, at
    any depth, whose name ends with [.mp4] written in lower case, be
    they files or folders, and nothing else. *)
Theorem folder_drop_adds_names_ending_in_mp4
        (fs : PathLib.filesystem) (items : list string) (path : string)
        (es0 : list (string * PathLib.node)) :
  PathLib.stat fs (PathLib.parse path) = Some (PathLib.Dir es0) ->
  exists added,
    fst (DropArea.dropEvent fs [path] items) = items ++ map PathLib.to_str added
    /\ forall q,
        In q added <->
        exists sub es nm x,
          reaches (PathLib.Dir es0) sub es
          /\ In (nm, x) es
          /\ Str.endswith ".mp4" nm = true
          /\ q = PathLib.mkPath (PathLib.root (PathLib.parse path))
                                (PathLib.parts (PathLib.parse path)
                                 ++ sub ++ [nm]).
Proof.
  intros Hstat.
  exists (PathLib.rglob_star fs (PathLib.parse path) ".mp4"). split.
  - unfold DropArea.dropEvent, DropArea.drop_url, PathLib.is_file, PathLib.is_dir.
    cbn [fold_left fst]. now rewrite Hstat.
  - intros q. unfold PathLib.rglob_star. rewrite Hstat, in_flat_map. split.
    + intros ([d es] & Hd & Hq).
      apply iterate_directories_spec in Hd as (sub & Hr & ->).
      apply in_map_iff in Hq as (nm & <- & Hnm).
      apply filter_In in Hnm as [Hnm Hm].
      apply in_map_iff in Hnm as ([nm' x] & <- & Hin).
      exists sub, es, nm', x. repeat split; try assumption.
      unfold PathLib.child. cbn. now rewrite <- app_assoc.
    + intros (sub & es & nm & x & Hr & Hin & Hm & ->).
      exists (PathLib.mkPath (PathLib.root (PathLib.parse path))
                             (PathLib.parts (PathLib.parse path) ++ sub), es).
      split.
      * apply iterate_directories_spec. now exists sub.
      * apply in_map_iff. exists nm. split.
        -- unfold PathLib.child. cbn. now rewrite <- app_assoc.
        -- apply filter_In. split; [|assumption].
           apply in_map_iff. now exists (nm, x).
Qed.

(** ** More on a run of [convert_files] *)

(** What a run leaves of the window and adds to the trace, whichever
    way it ends; [t] is what the loop added. *)
Lemma convert_files_run (w : world) (s : state) :
  items s <> [] -> folder_ready w s = true ->
  exists fl s3 t,
    convert_loop w (resolve (output_input s) (now w))
                 (List.length (items s)) 1 (items s) (prepared w s)
    = (fl, s3)
    /\ trace s3
       = trace s
         ++ (if path_exists w (resolve (output_input s) (now w)) then []
             else [Makedirs (resolve (output_input s) (now w))])
         ++ [SetValue 0%Z] ++ t
    /\ items s3 = items s /\ output_input s3 = output_input s
    /\ progress_visible s3 = true
    /\ calls s3 = calls s + List.length (invocations t)
    /\ created_dirs t = [] /\ summaries t = []
    /\ fl <> Continue.
Proof.
  intros Hne Hf.
  destruct (convert_loop_spec w (resolve (output_input s) (now w))
              (List.length (items s)) (items s) 1 (prepared w s))
    as (t & Ht & Hi & Ho & Hv & Hs & Hd & Hc & _ & _ & Hm).
  cbn zeta in *.
  destruct (convert_loop w _ _ 1 (items s) (prepared w s)) as [fl s3].
  cbn [fst snd] in *. exists fl, s3, t.
  split; [reflexivity|]. rewrite Ht, Hi, Ho, Hv, Hc.
  unfold prepared. destruct (path_exists w _); cbn;
    rewrite <- ?app_assoc; repeat split; auto;
    intros ->; contradiction.
Qed.

(** X13: when the list is not empty, [os.makedirs] is called exactly
    when the folder is missing, once, and before anything else; if it
    raises, the function ends there: no process is started, the bar is
    neither reset nor shown, and the list is kept. *)
Theorem folder_is_made_first (w : world) (s : state) :
  items s <> [] ->
  exists t,
    trace (snd (convert_files w s))
    = trace s
      ++ (if path_exists w (resolve (output_input s) (now w)) then []
          else [Makedirs (resolve (output_input s) (now w))])
      ++ t
    /\ created_dirs t = []
    /\ (folder_ready w s = false ->
        fst (convert_files w s) = Raised
        /\ t = []
        /\ items (snd (convert_files w s)) = items s
        /\ calls (snd (convert_files w s)) = calls s
        /\ progress_value (snd (convert_files w s)) = progress_value s
        /\ progress_visible (snd (convert_files w s)) = progress_visible s).
Proof.
  intros Hne. destruct (folder_ready w s) eqn:Hf.
  - rewrite (convert_files_loop w s Hne Hf).
    destruct (convert_files_run w s Hne Hf)
      as (fl & s3 & t & -> & Ht & _ & _ & _ & _ & Hd & _ & _).
    destruct fl; cbn [fst snd trace clear log set_visible].
    + exists ([SetValue 0%Z] ++ t
              ++ [Dialog (Done (List.length (items s))
                               (resolve (output_input s) (now w)))]).
      rewrite Ht, <- !app_assoc. split; [reflexivity|].
      split; [|discriminate]. cbn. now rewrite created_dirs_app, Hd.
    + exists ([SetValue 0%Z] ++ t
              ++ [Dialog (Done (List.length (items s))
                               (resolve (output_input s) (now w)))]).
      rewrite Ht, <- !app_assoc. split; [reflexivity|].
      split; [|discriminate]. cbn. now rewrite created_dirs_app, Hd.
    + exists ([SetValue 0%Z] ++ t). rewrite Ht.
      split; [reflexivity|]. split; [exact Hd|discriminate].
    + exists ([SetValue 0%Z] ++ t). rewrite Ht.
      split; [reflexivity|]. split; [exact Hd|discriminate].
  - rewrite (convert_files_no_folder w s Hne Hf). exists [].
    unfold folder_ready in Hf. apply orb_false_iff in Hf as [-> _].
    cbn. repeat split; reflexivity.
Qed.

(** X14: the progress bar is hidden when a run reaches its end; when
    the run stops because ffmpeg was not found, or by an exception raised
    in the loop, the bar stays on the screen; a click on an empty list,
    or a folder that cannot be made, leaves it as it was. *)
Theorem progress_bar_after_a_run (w : world) (s : state) :
  match fst (convert_files w s) with
  | Completed => progress_visible (snd (convert_files w s)) = false
  | Fatal => progress_visible (snd (convert_files w s)) = true
  | EmptyBatch => progress_visible (snd (convert_files w s)) = progress_visible s
  | Raised =>
      progress_visible (snd (convert_files w s))
      = if folder_ready w s then true else progress_visible s
  end.
Proof.
  destruct (items s) as [|f0 r0] eqn:E.
  - now rewrite (convert_files_empty w s E).
  - assert (Hne : items s <> []) by (rewrite E; discriminate).
    destruct (folder_ready w s) eqn:Hf.
    + rewrite (convert_files_loop w s Hne Hf).
      destruct (convert_files_run w s Hne Hf)
        as (fl & s3 & t & -> & _ & _ & _ & Hv & _ & _ & _ & Hfl).
      destruct fl; cbn; congruence.
    + now rewrite (convert_files_no_folder w s Hne Hf).
Qed.

(** The loop reports in a "Conversion Error" box the file at position [p]
    exactly when the job at [p] exits with another code than 0; [ps]
    lists those positions. *)
Lemma convert_loop_failures w o tot files :
  forall i s,
  exists ps,
    failures (trace (snd (convert_loop w o tot i files s)))
    = failures (trace s) ++ map (fun p => nth (p - i) files EmptyString) ps
    /\ StronglySorted lt ps
    /\ forall p,
        In p ps <->
        exists j code,
          p = i + j
          /\ j < calls (snd (convert_loop w o tot i files s)) - calls s
          /\ run_process w (calls s + j)
               (ffmpeg_argv w o (nth j files EmptyString)) = Exited code
          /\ code <> 0%Z.
Proof.
  induction files as [|f rest IH]; intros i s.
  - exists []. cbn. rewrite app_nil_r. repeat split; try constructor.
    + intros [].
    + intros (j & code & _ & Hj & _). lia.
  - cbn [convert_loop].
    pose proof (convert_one_turn w o tot i f s) as T.
    destruct (convert_one w o tot i f s) as [fl s1]. cbn [fst snd] in T.
    assert (Hgrow : forall s2,
              calls s2 <= calls (snd (convert_loop w o tot (S i) rest s2))).
    { intros s2.
      destruct (convert_loop_spec w o tot rest (S i) s2)
        as (t & _ & _ & _ & _ & _ & _ & Hc & _).
      cbn zeta in Hc. lia. }
    assert (Hshift : forall ps : list nat,
              (forall p, In p ps -> S i <= p) ->
              map (fun p => nth (p - S i) rest EmptyString) ps
              = map (fun p => nth (p - i) (f :: rest) EmptyString) ps).
    { intros ps Hps. apply map_ext_in. intros p Hp. apply Hps in Hp.
      replace (p - i) with (S (p - S i)) by lia. reflexivity. }
    inversion T; subst; clear T.
    + match goal with |- context [convert_loop w o tot (S i) rest ?s1] =>
        destruct (IH (S i) s1) as (ps & Hv & Hs & Hin);
        pose proof (Hgrow s1) as Hg
      end.
      cbn [calls trace] in *.
      exists ps. rewrite Hv. read_trace. rewrite app_nil_r.
      split; [f_equal; apply Hshift; intros p Hp;
              apply Hin in Hp as (j & c & -> & _); lia|].
      split; [assumption|].
      intros p. rewrite Hin. split.
      * intros (j & code & -> & Hj & Hrun & Hne).
        exists (S j), code. cbn [nth]. split; [lia|]. split; [lia|].
        split; [|assumption]. rewrite <- Hrun. f_equal. lia.
      * intros (j & code & -> & Hj & Hrun & Hne). destruct j as [|j].
        -- rewrite Nat.add_0_r in Hrun. cbn in Hrun. congruence.
        -- exists j, code. split; [lia|]. split; [lia|].
           split; [|assumption].
           cbn [nth] in Hrun. rewrite <- Hrun. f_equal. lia.
    + match goal with |- context [convert_loop w o tot (S i) rest ?s1] =>
        destruct (IH (S i) s1) as (ps & Hv & Hs & Hin);
        pose proof (Hgrow s1) as Hg
      end.
      cbn [calls trace] in *.
      exists (i :: ps). rewrite Hv. read_trace. rewrite <- app_assoc.
      split; [|split].
      * cbn [map app]. rewrite Nat.sub_diag. cbn [nth]. do 2 f_equal.
        apply Hshift. intros p Hp. apply Hin in Hp as (j & c & -> & _). lia.
      * constructor; [assumption|]. apply Forall_forall. intros p Hp.
        apply Hin in Hp as (j & c & -> & _). lia.
      * intros p. cbn [In]. rewrite Hin. split.
        -- intros [<-|(j & c & -> & Hj & Hrun & Hne)].
           ++ exists 0, code. rewrite !Nat.add_0_r. cbn.
              split; [reflexivity|]. split; [lia|]. split; assumption.
           ++ exists (S j), c. cbn [nth]. split; [lia|]. split; [lia|].
              split; [|assumption]. rewrite <- Hrun. f_equal. lia.
        -- intros (j & c & -> & Hj & Hrun & Hne). destruct j as [|j].
           ++ left. lia.
           ++ right. exists j, c. split; [lia|]. split; [lia|].
              split; [|assumption].
              cbn [nth] in Hrun. rewrite <- Hrun. f_equal. lia.
    + exists []. cbn [fst snd calls trace map].
      split; [read_trace; now rewrite !app_nil_r|]. split; [constructor|].
      intros p. split; [intros []|]. intros (j & c & -> & Hj & Hrun & _).
      assert (j = 0) by lia. subst j.
      rewrite Nat.add_0_r in Hrun. cbn in Hrun. congruence.
    + exists []. cbn [fst snd calls trace map].
      split; [read_trace; now rewrite !app_nil_r|]. split; [constructor|].
      intros p. split; [intros []|]. intros (j & c & -> & Hj & Hrun & _).
      assert (j = 0) by lia. subst j.
      rewrite Nat.add_0_r in Hrun. cbn in Hrun. congruence.
Qed.

(** When every process exits, the loop goes through the whole list. *)
Lemma convert_loop_all_exit w o tot files :
  forall i s,
    (forall j, j < List.length files ->
       exists code,
         run_process w (calls s + j) (ffmpeg_argv w o (nth j files EmptyString))
         = Exited code) ->
    fst (convert_loop w o tot i files s) = Next
    /\ calls (snd (convert_loop w o tot i files s)) = calls s + List.length files.
Proof.
  induction files as [|f rest IH]; intros i s Hall.
  - cbn. split; [reflexivity|lia].
  - cbn [convert_loop].
    destruct (Hall 0 ltac:(cbn; lia)) as [code H0].
    rewrite Nat.add_0_r in H0. cbn in H0.
    loop_turn w o tot i f s; try congruence;
      (match goal with |- context [convert_loop w o tot (S i) rest ?s1] =>
         destruct (IH (S i) s1) as [Hr Hc] end;
       [ intros j Hj; destruct (Hall (S j) ltac:(cbn; lia)) as [c Hc];
         exists c; cbn [calls]; rewrite <- Hc; cbn [nth]; f_equal; lia
       | rewrite Hr, Hc; cbn; split; [reflexivity|lia] ]).
Qed.

(** X15: when the list is not empty, the folder is there and every
    process exits, with whatever code, the run goes through the whole
    list and completes: one process per file, the list emptied, a
    "Conversion Error" box for exactly the files whose process exited with
    another code than 0, in the order of the list, and every other
    conversion counted as succeeded. *)
Theorem batch_survives_failed_conversions (w : world) (s : state) :
  items s <> [] ->
  folder_ready w s = true ->
  (forall i, 1 <= i <= List.length (items s) ->
     exists code, job_outcome w s i = Exited code) ->
  fst (convert_files w s) = Completed
  /\ calls (snd (convert_files w s)) = calls s + List.length (items s)
  /\ items (snd (convert_files w s)) = []
  /\ exists ps,
      failures (trace (snd (convert_files w s)))
      = failures (trace s)
        ++ map (fun i => nth (i - 1) (items s) EmptyString) ps
      /\ StronglySorted lt ps
      /\ (forall i,
            In i ps <->
            1 <= i <= List.length (items s)
            /\ exists code, job_outcome w s i = Exited code /\ code <> 0%Z)
      /\ succeeded (trace (snd (convert_files w s))) + List.length ps
         = succeeded (trace s) + List.length (items s).
Proof.
  intros Hne Hf Hall. rewrite (convert_files_loop w s Hne Hf).
  destruct (prepared_trace w s) as (t0 & Hp & Ht0 & Hpi & Hpo & Hpc).
  set (o := resolve (output_input s) (now w)) in *.
  set (tot := List.length (items s)) in *.
  destruct (convert_loop_all_exit w o tot (items s) 1 (prepared w s))
    as [Hfl Hcalls].
  { intros j Hj. destruct (Hall (S j) ltac:(unfold tot; lia)) as [c Hc].
    exists c. rewrite Hpc. unfold job_outcome in Hc. fold o in Hc.
    cbn in Hc. now rewrite Nat.sub_0_r in Hc. }
  destruct (convert_loop_failures w o tot (items s) 1 (prepared w s))
    as (ps & Hfail & Hsorted & Hin).
  destruct (convert_loop_spec w o tot (items s) 1 (prepared w s))
    as (t & Ht & _ & _ & _ & _ & _ & _ & _ & _ & Hm).
  cbn zeta in *. rewrite Hfl in Hm. destruct Hm as (_ & Hcount & _).
  destruct (convert_loop w o tot 1 (items s) (prepared w s)) as [fl s3].
  cbn [fst snd] in *. subst fl. cbn [fst snd calls items clear log set_visible].
  split; [reflexivity|]. split; [lia|]. split; [reflexivity|].
  assert (Hf0 : failures (trace (prepared w s)) = failures (trace s)).
  { rewrite Hp. read_trace. destruct Ht0 as [-> | ->]; cbn;
      now rewrite app_nil_r. }
  assert (Hs0 : succeeded (trace (prepared w s)) = succeeded (trace s)).
  { rewrite Hp. read_trace. destruct Ht0 as [-> | ->]; cbn; lia. }
  assert (Hlen : List.length (failures t) = List.length ps).
  { rewrite Ht, failures_app, Hf0 in Hfail. apply app_inv_head in Hfail.
    now rewrite Hfail, length_map. }
  exists ps. cbn [trace clear log set_visible].
  split; [|split; [assumption|split]].
  - rewrite failures_app, Hfail, Hf0. cbn. now rewrite app_nil_r.
  - intros i. rewrite Hin, Hcalls, Hpc. unfold job_outcome. fold o. split.
    + intros (j & c & -> & Hj & Hrun & Hc). cbn. rewrite Nat.sub_0_r.
      split; [unfold tot in *; lia|]. now exists c.
    + intros (Hi & c & Hrun & Hc). exists (i - 1), c.
      split; [lia|]. split; [unfold tot in *; lia|]. now split.
  - rewrite succeeded_app, Ht, succeeded_app, Hs0. cbn. unfold tot in *. lia.
Qed.

(** The loop stops at the first process that ends by an exception other
    than the two it catches. *)
Lemma convert_loop_raise_at w o tot files :
  forall k i s,
    k < List.length files ->
    (forall j, j < k ->
       exists code,
         run_process w (calls s + j) (ffmpeg_argv w o (nth j files EmptyString))
         = Exited code) ->
    run_process w (calls s + k) (ffmpeg_argv w o (nth k files EmptyString))
    = OtherException ->
    fst (convert_loop w o tot i files s) = Raise
    /\ calls (snd (convert_loop w o tot i files s)) = calls s + S k.
Proof.
  induction files as [|f rest IH]; intros k i s Hk Hbefore Hat.
  - cbn in Hk. lia.
  - cbn [convert_loop]. destruct k as [|k].
    + rewrite Nat.add_0_r in Hat. cbn in Hat.
      loop_turn w o tot i f s; try congruence.
      cbn. split; [reflexivity|lia].
    + destruct (Hbefore 0 ltac:(lia)) as [code H0].
      rewrite Nat.add_0_r in H0. cbn in H0.
      loop_turn w o tot i f s; try congruence;
      (match goal with |- context [convert_loop w o tot (S i) rest ?s1] =>
         destruct (IH k (S i) s1) as [Hr Hc] end;
       [ cbn in Hk; lia
       | intros j Hj; destruct (Hbefore (S j) ltac:(lia)) as [c Hc];
         exists c; cbn [calls]; rewrite <- Hc; cbn [nth]; f_equal; lia
       | cbn [calls]; rewrite <- Hat; cbn [nth]; f_equal; lia
       | rewrite Hr, Hc; cbn; split; [reflexivity|lia] ]).
Qed.

(** X16: when the process of the job at position [k] is the first that
    ends by an exception that [convert_files] does not catch, the
    exception leaves the function: [k] processes were started, that
    process is the last event (no message box, no summary), the list is
    kept and the bar stays shown. *)
Theorem uncaught_error_stops_the_batch (w : world) (s : state) (k : nat) :
  1 <= k <= List.length (items s) ->
  folder_ready w s = true ->
  (forall i, 1 <= i < k -> exists code, job_outcome w s i = Exited code) ->
  job_outcome w s k = OtherException ->
  fst (convert_files w s) = Raised
  /\ calls (snd (convert_files w s)) = calls s + k
  /\ items (snd (convert_files w s)) = items s
  /\ progress_visible (snd (convert_files w s)) = true
  /\ exists t t0 argv,
      trace (snd (convert_files w s)) = trace s ++ t
      /\ t = t0 ++ [Run argv OtherException]
      /\ fatal_flag t = false
      /\ summaries t = [].
Proof.
  intros Hk Hf Hbefore Hat.
  assert (Hne : items s <> []).
  { destruct (items s); [cbn in Hk; lia|discriminate]. }
  rewrite (convert_files_loop w s Hne Hf).
  destruct (prepared_trace w s) as (t0 & Hp & Ht0 & Hpi & Hpo & Hpc).
  set (o := resolve (output_input s) (now w)) in *.
  destruct (convert_loop_raise_at w o (List.length (items s)) (items s)
              (k - 1) 1 (prepared w s)) as [Hr Hc].
  - lia.
  - intros j Hj. destruct (Hbefore (S j) ltac:(lia)) as [c Hcode].
    exists c. rewrite Hpc. unfold job_outcome in Hcode. fold o in Hcode.
    cbn in Hcode. now rewrite Nat.sub_0_r in Hcode.
  - rewrite Hpc. exact Hat.
  - destruct (convert_loop_spec w o (List.length (items s)) (items s) 1
                (prepared w s))
      as (t & Ht & Hi & _ & Hv & Hs & _ & _ & _ & _ & Hm).
    cbn zeta in *.
    destruct (convert_loop w o _ 1 (items s) (prepared w s)) as [fl s3].
    cbn [fst snd] in *. subst fl. destruct Hm as (Hff & t1 & argv & ->).
    cbn [fst snd].
    split; [reflexivity|]. split; [lia|]. split; [congruence|].
    split; [rewrite Hv; reflexivity|].
    exists ((t0 ++ [SetValue 0%Z]) ++ t1 ++ [Run argv OtherException]),
           ((t0 ++ [SetValue 0%Z]) ++ t1), argv.
    split; [rewrite Ht, Hp, <- !app_assoc; reflexivity|].
    split; [now rewrite <- !app_assoc|].
    rewrite fatal_flag_app, summaries_app, Hs, Hff.
    destruct Ht0 as [-> | ->]; split; reflexivity.
Qed.

(** ** The converter cannot be started *)




(** ** One run after another *)

(** The list after a run: emptied when the run completes, kept
    otherwise; the folder field is never touched. *)
Lemma convert_files_items (w : world) (s : state) :
  (fst (convert_files w s) = Completed -> items (snd (convert_files w s)) = [])
  /\ (fst (convert_files w s) <> Completed ->
      items (snd (convert_files w s)) = items s)
  /\ output_input (snd (convert_files w s)) = output_input s.
Proof.
  destruct (items s) as [|f0 r0] eqn:E.
  - rewrite (convert_files_empty w s E). cbn. rewrite E. auto.
  - assert (Hne : items s <> []) by (rewrite E; discriminate).
    rewrite <- E. clear E f0 r0.
    destruct (folder_ready w s) eqn:Hf.
    + rewrite (convert_files_loop w s Hne Hf).
      destruct (convert_files_run w s Hne Hf)
        as (fl & s3 & t & -> & _ & Hi & Ho & _).
      destruct fl; cbn; repeat split; auto; congruence.
    + rewrite (convert_files_no_folder w s Hne Hf). cbn.
      repeat split; auto; discriminate.
Qed.


(** X17: after a run that completed, another click on the button, in
    whatever world, only shows the warning about the empty list: no
    process is started. *)
Theorem click_after_completion_only_warns (w w' : world) (s : state) :
  fst (convert_files w s) = Completed ->
  fst (convert_files w' (snd (convert_files w s))) = EmptyBatch
  /\ trace (snd (convert_files w' (snd (convert_files w s))))
     = trace (snd (convert_files w s)) ++ [Dialog NoFiles]
  /\ calls (snd (convert_files w' (snd (convert_files w s))))
     = calls (snd (convert_files w s)).
Proof.
  intros Hc. destruct (convert_files_items w s) as (He & _ & _).
  rewrite (convert_files_empty w' _ (He Hc)). repeat split.
Qed.


(** ** The window over a session *)

Lemma remove_item_keeps (P : string -> Prop) (row : nat) (l : list string) :
  Forall P l -> Forall P (DropArea.remove_item row l).
Proof.
  revert l. induction row as [|row IH]; intros [|x l] H; cbn; auto.
  - now inversion H.
  - inversion H; subst. constructor; auto.
Qed.

Lemma handle_keeps_mp4 (s : state) (a : action) :
  Forall (fun x => ends_with_mp4 x = true) (items s) ->
  Forall (fun x => ends_with_mp4 x = true) (items (handle s a)).
Proof.
  intros H. destruct a as [urls|urls|fs urls|row|text|w]; cbn [handle items];
    try assumption.
  - destruct (drop_urls_add fs urls (items s)) as (added & E & Ha).
    rewrite dropEvent_fold, E. apply Forall_app. now split.
  - now apply remove_item_keeps.
  - destruct (convert_files_items w s) as (He & Hk & _).
    destruct (fst (convert_files w s)) eqn:R;
      try (rewrite Hk by discriminate; assumption).
    rewrite He by reflexivity. constructor.
Qed.

(** X19: whatever the user does, in whatever order (drags, drops,
    double clicks, typing, clicks on the button), every entry of the
    list is a path that ends with [.mp4] in some case. *)
Theorem session_keeps_mp4_paths (actions : list action) :
  Forall (fun x => ends_with_mp4 x = true) (items (session actions)).
Proof.
  unfold session.
  assert (H : forall s,
             Forall (fun x => ends_with_mp4 x = true) (items s) ->
             Forall (fun x => ends_with_mp4 x = true)
                    (items (fold_left handle actions s))).
  { induction actions as [|a l IH]; intros s Hs; cbn [fold_left];
      [assumption|]. apply IH. now apply handle_keeps_mp4. }
  apply H. constructor.
Qed.

(** ** The theorems at sample runs *)

Lemma resolve_witness :
  (exists l t r,
     "  MyClips " = (l ++ t ++ r)%string
     /\ Str.trimmed t = true
     /\ (t <> EmptyString -> resolve "  MyClips " Sample.today = t))
  /\ exists Y M D,
      strftime_Ymd Sample.today = (Y ++ "-" ++ M ++ "-" ++ D)%string
      /\ Str.digits 4 Y = true /\ Str.digits 2 M = true
      /\ Str.digits 2 D = true.
Proof.
  destruct (resolve_trims_or_dates "  MyClips " Sample.today)
    as ((l & t & r & Hs & _ & _ & Ht & Hr & _) & Hdate & _).
  split.
  - exists l, t, r. repeat split; assumption.
  - destruct (Hdate eq_refl) as (Y & M & D & Hf & HY & HM & HD & _).
    exists Y, M, D. repeat split; assumption.
Defined.


Lemma empty_batch_witness :
  items (Sample.window [] "  ") = []
  /\ fst (convert_files Sample.all_fine (Sample.window [] "  ")) = EmptyBatch
  /\ created_dirs
       (trace (snd (convert_files Sample.all_fine (Sample.window [] "  "))))
     = [].
Proof.
  split; [reflexivity|].
  destruct (empty_batch_stops_before_any_work
              Sample.all_fine (Sample.window [] "  ") eq_refl)
    as (Hr & _ & Hd & _).
  split; [exact Hr|exact Hd].
Defined.


Lemma progress_witness :
  exists ps,
    progress_values
      (trace (snd (convert_files Sample.second_fails Sample.three_files)))
    = 0%Z :: map (fun i => bar_value i 3) ps
    /\ StronglySorted lt ps.
Proof.
  destruct (progress_follows_successful_jobs
              Sample.second_fails Sample.three_files) as (ps & Hv & Hs & _).
  - discriminate.
  - reflexivity.
  - exists ps. split; [exact Hv|exact Hs].
Defined.

Lemma same_stem_witness :
  output_file "out" "/monday/clip.mp4" = output_file "out" "/tuesday/clip.MP4"
  /\ output_file "out" "/monday/clip.mp4" = "out/clip.mov".
Proof.
  destruct (same_stem_later_job_overwrites
              Sample.all_fine Sample.same_stem 1 2
              "/monday/clip.mp4" "/tuesday/clip.MP4") as (Ho & _).
  - lia.
  - lia.
  - vm_compute. lia.
  - reflexivity.
  - reflexivity.
  - discriminate.
  - reflexivity.
  - reflexivity.
  - split; [exact Ho|reflexivity].
Defined.

Lemma dropping_a_file_witness :
  PathLib.is_file Sample.videos (PathLib.parse "/videos/b.MP4") = true
  /\ DropArea.dropEvent Sample.videos ["/videos/b.MP4"] ["/videos/b.MP4"]
     = (["/videos/b.MP4"] ++ [PathLib.to_str (PathLib.parse "/videos/b.MP4")],
        true).
Proof.
  split; [reflexivity|].
  destruct (dropping_a_file_appends_it
              Sample.videos ["/videos/b.MP4"] "/videos/b.MP4") as (He & _).
  - reflexivity.
  - reflexivity.
  - exact He.
Defined.

Lemma completed_run_witness :
  fst (convert_files Sample.second_fails Sample.three_files) = Completed
  /\ exists t,
      trace (snd (convert_files Sample.second_fails Sample.three_files)) = t
      /\ succeeded t + List.length (failures t) = 3.
Proof.
  split; [reflexivity|].
  destruct (completed_run_counts Sample.second_fails Sample.three_files eq_refl)
    as (t & Ht & Hn & _).
  exists t. split; [exact Ht|exact Hn].
Defined.

Lemma bar_values_witness :
  StronglySorted Z.le (bar_values 3) /\ bar_value 3 3 = 100%Z.
Proof.
  destruct (bar_values_nondecreasing 3) as (Hs & _ & Hl).
  - lia.
  - split; [exact Hs|exact Hl].
Defined.

Lemma remove_undoes_drop_witness :
  DropArea.remove_item 1
    (fst (DropArea.dropEvent Sample.videos ["/videos/b.MP4"] ["/videos/a.mp4"]))
  = ["/videos/a.mp4"].
Proof.
  apply (remove_undoes_drop Sample.videos ["/videos/a.mp4"] "/videos/b.MP4");
    reflexivity.
Defined.

Lemma folder_drop_witness :
  exists added,
    fst (DropArea.dropEvent Sample.videos ["/videos"] [])
    = [] ++ map PathLib.to_str added
    /\ In (PathLib.mkPath "/" ["videos"; "old"; "c.mp4"]) added.
Proof.
  destruct (folder_drop_adds_names_ending_in_mp4
              Sample.videos [] "/videos"
              [("a.mp4", PathLib.File); ("b.MP4", PathLib.File);
               ("notes.txt", PathLib.File);
               ("old", PathLib.Dir [("c.mp4", PathLib.File);
                                    ("d.Mp4", PathLib.File)])] eq_refl)
    as (added & Hfst & Hin).
  exists added. split; [exact Hfst|].
  apply Hin.
  exists ["old"], [("c.mp4", PathLib.File); ("d.Mp4", PathLib.File)],
         "c.mp4", PathLib.File.
  split.
  - apply (reaches_down _ "old" (PathLib.Dir [("c.mp4", PathLib.File);
                                              ("d.Mp4", PathLib.File)])).
    + cbn. auto.
    + constructor.
  - split; [cbn; auto|]. split; reflexivity.
Defined.

Lemma folder_is_made_first_witness :
  exists t,
    trace (snd (convert_files Sample.all_fine Sample.two_files))
    = [] ++ [Makedirs "out"] ++ t
    /\ created_dirs t = [].
Proof.
  destruct (folder_is_made_first Sample.all_fine Sample.two_files)
    as (t & Ht & Hd & _).
  - discriminate.
  - exists t. split; [exact Ht|exact Hd].
Defined.

Lemma batch_survives_witness :
  fst (convert_files Sample.second_fails Sample.three_files) = Completed
  /\ calls (snd (convert_files Sample.second_fails Sample.three_files)) = 0 + 3.
Proof.
  destruct (batch_survives_failed_conversions
              Sample.second_fails Sample.three_files) as (Hr & Hc & _).
  - discriminate.
  - reflexivity.
  - intros i Hi. unfold job_outcome. cbn.
    destruct (i - 1 =? 1); eexists; reflexivity.
  - split; [exact Hr|exact Hc].
Defined.

Lemma uncaught_error_witness :
  job_outcome Sample.second_raises Sample.three_files 2 = OtherException
  /\ fst (convert_files Sample.second_raises Sample.three_files) = Raised
  /\ calls (snd (convert_files Sample.second_raises Sample.three_files)) = 0 + 2.
Proof.
  split; [reflexivity|].
  destruct (uncaught_error_stops_the_batch
              Sample.second_raises Sample.three_files 2) as (Hr & Hc & _).
  - cbn. lia.
  - reflexivity.
  - intros i Hi. assert (i = 1) by lia. subst i. now exists 0%Z.
  - reflexivity.
  - split; [exact Hr|exact Hc].
Defined.

Lemma click_after_completion_witness :
  fst (convert_files Sample.all_fine Sample.two_files) = Completed
  /\ fst (convert_files Sample.no_ffmpeg
                       (snd (convert_files Sample.all_fine Sample.two_files)))
     = EmptyBatch.
Proof.
  split; [reflexivity|].
  destruct (click_after_completion_only_warns
              Sample.all_fine Sample.no_ffmpeg Sample.two_files eq_refl)
    as (Hr & _).
  exact Hr.
Defined.

